(** * Image construction of the PORTIX build system (scripts/build.py)

    A shallow embedding of the image-construction part of [scripts/build.py]:
    the layout computed in [create_raw], the raw-image assembly, the MBR
    partition-table injection [_inject_partition_table], the ISO step
    [create_iso] with its fallback [_iso_as_disk], the nested
    "ventoy-sim" container [create_ventoy_sim] and the order in which [main]
    runs them.

    Files are byte lists; Python integers are [Z] (floor division and
    modulo, arithmetic right shift and two's-complement [&]/[|] on [Z]
    behave as Python's [//], [%], [>>], [&] and [|]); list positions and
    lengths are [nat].  A Python exception is [None]. *)

From Stdlib Require Import ZArith List Lia Bool Strings.Byte.
From Stdlib Require Strings.String Strings.Ascii.
Import ListNotations.

Open Scope Z_scope.

(* ------------------------------------------------------------------ *)
(** ** Python byte buffers *)

Module Py.

(** Value of a byte as a Python [int]. *)
Definition bval (b : byte) : Z := Z.of_N (Byte.to_N b).

(** The byte stored by [buf[i] = z]; every [z] the code stores is in
    [0, 255], for which this is exact. *)
Definition bof (z : Z) : byte :=
  match Byte.of_N (Z.to_N (z mod 256)) with
  | Some b => b
  | None => Byte.x00
  end.

(** [bytearray(n)] *)
Definition zeros (n : nat) : list byte := repeat Byte.x00 n.

(** [buf[i:j] = v] for [0 <= i]: Python clamps both bounds to the buffer
    and treats [j < i] as the empty slice at [i]. *)
Definition slice_assign (buf : list byte) (i j : nat) (v : list byte)
  : list byte :=
  firstn i buf ++ v ++ skipn (Nat.max i j) buf.

(** [buf[i] = v] for an index [i] that is in range at every call. *)
Definition set_item (buf : list byte) (i : nat) (v : byte) : list byte :=
  slice_assign buf i (S i) [v].

(** [struct.pack('<I', v)]: raises [struct.error] outside [0, 2^32). *)
Definition pack_u32 (v : Z) : option (list byte) :=
  if (0 <=? v) && (v <? 2 ^ 32)
  then Some [bof v; bof (v / 2 ^ 8); bof (v / 2 ^ 16); bof (v / 2 ^ 24)]
  else None.

(** [struct.pack_into('<I', buf, off, v)]: also raises when the four
    bytes do not fit in [buf]. *)
Definition pack_into_u32 (buf : list byte) (off : nat) (v : Z)
  : option (list byte) :=
  match pack_u32 v with
  | Some w =>
      if (off + 4 <=? length buf)%nat
      then Some (slice_assign buf off (off + 4) w)
      else None
  | None => None
  end.

(** [f.seek(off); f.write(d)] on a file with contents [f]: a gap past the
    end reads back as zeros. *)
Definition write_at (f : list byte) (off : nat) (d : list byte)
  : list byte :=
  firstn off f ++ zeros (off - length f) ++ d ++ skipn (off + length d) f.

(** Little-endian fields read back from a buffer (absent bytes read 0). *)
Definition u8 (buf : list byte) (i : nat) : Z := bval (nth i buf Byte.x00).
Definition le16 (buf : list byte) (i : nat) : Z :=
  u8 buf i + 2 ^ 8 * u8 buf (S i).
Definition le32 (buf : list byte) (i : nat) : Z :=
  le16 buf i + 2 ^ 16 * le16 buf (i + 2).

End Py.

Import Py.

(* ------------------------------------------------------------------ *)
(** ** MBR partition-table injection ([_inject_partition_table]) *)

Module Mbr.

(** What the function logs. *)
Inductive event :=
| WarnSignature      (** "[WARN]  boot.bin no tiene firma 0xAA55" *)
| TableInjected.     (** "Tabla de particiones inyectada" *)

(** The 16-byte entry built in [part] from [total_sectors]. *)
Definition partition_entry (total_sectors : Z) : option (list byte) :=
  let end_lba := total_sectors - 1 in
  let end_sect := end_lba mod 63 + 1 in
  let end_head := (end_lba / 63) mod 255 in
  let end_cyl := end_lba / (63 * 255) in
  let part :=
    [ Byte.x80                                  (* part[0] activa *)
    ; Byte.x00                                  (* part[1] head 0 *)
    ; Byte.x02                                  (* part[2] sector 2 *)
    ; Byte.x00                                  (* part[3] cilindro 0 *)
    ; Byte.x0b                                  (* part[4] FAT32 CHS *)
    ; bof (Z.land end_head 255)                 (* part[5] *)
    ; bof (Z.lor (Z.land end_sect 63)
                 (Z.land (Z.shiftr end_cyl 2) 192)) (* part[6] *)
    ; bof (Z.land end_cyl 255)                  (* part[7] *)
    ] ++ zeros 8 in
  match pack_into_u32 part 8 1 with
  | Some part => pack_into_u32 part 12 (total_sectors - 1)
  | None => None
  end.

(** [_inject_partition_table]: the log it writes and the new file
    contents ([None]: an exception is raised before the file is written). *)
Definition inject_partition_table (data : list byte)
  : list event * option (list byte) :=
  let total_sectors := Z.of_nat (length data) / 512 in
  match nth_error data 510 with                   (* data[0x1FE] *)
  | None => ([], None)                           (* IndexError *)
  | Some b0 =>
      (* [or] short-circuits: data[0x1FF] is read only when
         data[0x1FE] == 0x55 *)
      let bad :=
        if negb (Byte.eqb b0 Byte.x55) then Some true
        else match nth_error data 511 with
             | Some b1 => Some (negb (Byte.eqb b1 Byte.xaa))
             | None => None
             end in
      match bad with
      | None => ([], None)                       (* IndexError *)
      | Some bad =>
          let warns := if bad then [WarnSignature] else [] in
          match partition_entry total_sectors with
          | None => (warns, None)                (* struct.error *)
          | Some part =>
              (warns ++ [TableInjected],
               Some (slice_assign data 446 (446 + 16) part))
          end
      end
  end.

(** The image file after the call: unchanged when it raised. *)
Definition file_after (data : list byte) : list byte :=
  match snd (inject_partition_table data) with
  | Some d => d
  | None => data
  end.

(** The signature check of the code: [data[0x1FE] != 0x55 or
    data[0x1FF] != 0xAA]. *)
Definition signature_bad (data : list byte) : bool :=
  negb (Byte.eqb (nth 510 data Byte.x00) Byte.x55)
  || negb (Byte.eqb (nth 511 data Byte.x00) Byte.xaa).

(** Decoding an entry found at [0x1BE] of a sector. *)
Definition entry_flag (d : list byte) : Z := u8 d 446.
Definition entry_start_lba (d : list byte) : Z := le32 d (446 + 8).
Definition entry_num_sectors (d : list byte) : Z := le32 d (446 + 12).

(** The legacy CHS reading of the ending address (bytes 5..7 of the
    entry): 6-bit sector, 10-bit cylinder whose top two bits sit in the
    top of the sector byte, 255 heads, 63 sectors per track. *)
Definition entry_end_chs_lba (d : list byte) : Z :=
  let head := u8 d (446 + 5) in
  let sb := u8 d (446 + 6) in
  let cyl := u8 d (446 + 7) + Z.shiftl (Z.shiftr (Z.land sb 192) 6) 8 in
  let sect := Z.land sb 63 in
  (cyl * 255 + head) * 63 + sect - 1.

End Mbr.

(* ------------------------------------------------------------------ *)
(** ** Layout and raw image ([sectors_of], [create_raw]) *)

Module Raw.

Definition STAGE2_SECTORS : Z := 64.
Definition KERNEL_LBA_START : Z := 1 + STAGE2_SECTORS.
Definition KERNEL_MARGIN : Z := 64.
Definition DISK_MIN_MB : Z := 8.

(** [math.ceil(a / b)] for [b > 0]: dividing an integer below [2^53] by a
    power of two is exact in binary floating point, so the float ceiling
    is the integer ceiling. *)
Definition ceil_div (a b : Z) : Z := (a + b - 1) / b.

(** [sectors_of(p)] on a file of contents [p]. *)
Definition sectors_of (p : list byte) : Z :=
  ceil_div (Z.of_nat (length p)) 512.

(** The layout of [create_raw]: [(total, mb, nbytes)]. *)
Definition raw_layout (kernel_sectors : Z) : Z * Z * Z :=
  let total := KERNEL_LBA_START + kernel_sectors + KERNEL_MARGIN in
  let mb := Z.max (ceil_div (total * 512) (1024 * 1024)) DISK_MIN_MB in
  (total, mb, mb * 1024 * 1024).

Definition layout_total (ks : Z) : Z := fst (fst (raw_layout ks)).
Definition layout_mb (ks : Z) : Z := snd (fst (raw_layout ks)).
Definition layout_nbytes (ks : Z) : Z := snd (raw_layout ks).

(** [DISK_IMG] after the truncate and the three [write_at] calls. *)
Definition assemble_raw (kernel_sectors : Z)
    (boot stage2 kernel : list byte) : list byte :=
  let f := zeros (Z.to_nat (layout_nbytes kernel_sectors)) in
  let f := write_at f 0 boot in
  let f := write_at f 512 stage2 in
  write_at f (Z.to_nat (KERNEL_LBA_START * 512)) kernel.

(** [create_raw]: assembly followed by [_inject_partition_table]; the
    second component is [DISK_IMG] once the step has returned. *)
Definition create_raw (kernel_sectors : Z) (boot stage2 kernel : list byte)
  : list Mbr.event * option (list byte) :=
  Mbr.inject_partition_table (assemble_raw kernel_sectors boot stage2 kernel).

End Raw.

(* ------------------------------------------------------------------ *)
(** ** ISO step ([create_iso], [_iso_xorriso], [_iso_genisoimage],
       [_iso_as_disk]) *)

Module Iso.

(** An external authoring program, run at a wall-clock time on the raw
    image: whether it exits with status 0, and the file it leaves at
    [ISO_IMG], if any.  Its output is not under the build's control. *)
Definition tool := Z -> list byte -> bool * option (list byte).

(** Which programs [find_tool] finds. *)
Record tools := mk_tools { xorriso : option tool; genisoimage : option tool }.

Definition no_tools : tools := mk_tools None None.

(** [_iso_xorriso] / [_iso_genisoimage]: whether it returned [True], and
    [ISO_IMG] afterwards ([iso] is [ISO_IMG] before the call). *)
Definition run_iso_tool (t : option tool) (clock : Z) (disk : list byte)
    (iso : option (list byte)) : bool * option (list byte) :=
  match t with
  | None => (false, iso)
  | Some f =>
      let (ok, written) := f clock disk in
      let iso' := match written with Some x => Some x | None => iso end in
      (ok && match iso' with Some _ => true | None => false end, iso')
  end.

(** [create_iso]: [ISO_IMG] after the step, given [DISK_IMG] = [disk]. *)
Definition create_iso (ts : tools) (clock : Z) (disk : list byte)
    (iso : option (list byte)) : option (list byte) :=
  let (done1, iso1) := run_iso_tool (xorriso ts) clock disk iso in
  if done1 then iso1 else
  let (done2, iso2) := run_iso_tool (genisoimage ts) clock disk iso1 in
  if done2 then iso2 else
  Some disk.                              (* _iso_as_disk: shutil.copy2 *)

(** Reading an El Torito boot catalog: the boot-record volume descriptor
    at logical block 17 (type 0, "CD001") points with a 32-bit field at
    its offset 0x47 to the catalog block, whose first 32 bytes are the
    validation entry; its 16 little-endian words must sum to 0 modulo
    2^16.  [false] when there is no boot-record descriptor. *)
Definition cd001 : list byte := [Byte.x43; Byte.x44; Byte.x30; Byte.x30; Byte.x31].

Definition boot_record_at (vol : list byte) (base : nat) : bool :=
  Byte.eqb (nth base vol Byte.x00) Byte.x00 &&
  forallb (fun k => Byte.eqb (nth (base + 1 + k) vol Byte.x00)
                             (nth k cd001 Byte.x00)) (seq 0 5).

Definition validation_entry_ok (vol : list byte) : bool :=
  let base := (17 * 2048)%nat in
  if boot_record_at vol base then
    let cat := Z.to_nat (le32 vol (base + 71)) in
    let words := map (fun k => le16 vol (cat * 2048 + 2 * k)) (seq 0 16) in
    fold_left Z.add words 0 mod 2 ^ 16 =? 0
  else false.

End Iso.

(* ------------------------------------------------------------------ *)
(** ** Nested "ventoy-sim" container ([create_ventoy_sim]) *)

Module Ventoy.

Definition VENTOY_SIM_OFFSET_SECTORS : Z := 2048.
Definition VENTOY_SIM_DISK_MB : Z := 64.

(** [chainload_asm]: short jump, the disk-address packet (size, reserved,
    count, offset, segment, 64-bit LBA), padded with [nop] to 0x4E bytes. *)
Definition chainload_asm (part_lba_start : Z) : option (list byte) :=
  match pack_u32 part_lba_start, pack_u32 0 with
  | Some lba, Some hi =>
      let c := [Byte.xeb; Byte.x4e;
                Byte.x10; Byte.x00; Byte.x01; Byte.x00;
                Byte.x00; Byte.x7c; Byte.x00; Byte.x7c] ++ lba ++ hi in
      Some (c ++ repeat Byte.x90 (78 - length c))
  | _, _ => None
  end.

(** [main_code] *)
Definition main_code : list byte :=
  [ Byte.xfa; Byte.x31; Byte.xc0; Byte.x8e; Byte.xd8; Byte.x8e; Byte.xc0;
    Byte.x8e; Byte.xd0;
    Byte.xbc; Byte.x00; Byte.x7c; Byte.xfb;
    Byte.xbe; Byte.x02; Byte.x7c; Byte.xb4; Byte.x42; Byte.xcd; Byte.x13;
    Byte.x72; Byte.x06;
    Byte.xbe; Byte.xbe; Byte.x7d;
    Byte.xea; Byte.x00; Byte.x7c; Byte.x00; Byte.x00;
    Byte.xfa; Byte.xf4 ].

(** [part_entry] before the two [pack_into] calls. *)
Definition part_entry0 : list byte :=
  [Byte.x80; Byte.xfe; Byte.xff; Byte.xff; Byte.x42; Byte.xfe; Byte.xff;
   Byte.xff] ++ zeros 8.

(** The 512-byte [mbr] from the packed code and partition entry. *)
Definition build_mbr (full_code part_entry : list byte) : list byte :=
  let code := firstn 446 full_code in
  let mbr := slice_assign (zeros 512) 0 (length code) code in
  let mbr := slice_assign mbr 446 (446 + 16) part_entry in
  let mbr := set_item mbr 510 Byte.x55 in
  set_item mbr 511 Byte.xaa.

(** [create_ventoy_sim] on [img_data] = the bytes of [DISK_IMG]: the bytes
    written to [VSIM_IMG] ([None]: an exception before the write). *)
Definition create_ventoy_sim (img_data : list byte) : option (list byte) :=
  let img_sects := Z.of_nat (length img_data) / 512 in
  let container :=
    zeros (Z.to_nat (VENTOY_SIM_DISK_MB * 1024 * 1024)) in
  let off := Z.to_nat (VENTOY_SIM_OFFSET_SECTORS * 512) in
  let container :=
    slice_assign container off (off + length img_data) img_data in
  let part_lba_start := VENTOY_SIM_OFFSET_SECTORS in
  let part_lba_size := img_sects in
  match pack_into_u32 part_entry0 8 part_lba_start with
  | None => None
  | Some pe =>
  match pack_into_u32 pe 12 part_lba_size with
  | None => None
  | Some part_entry =>
  match chainload_asm part_lba_start with
  | None => None
  | Some ch =>
      let mbr := build_mbr (ch ++ main_code) part_entry in
      Some (slice_assign container 0 512 mbr)
  end end end.

(** The disk-address packet that [mov si, 0x7C02] hands to
    [int 0x13, ah = 0x42], read back from sector 0 of the container. *)
Definition dap_count (c : list byte) : Z := le16 c 4.
Definition dap_offset (c : list byte) : Z := le16 c 6.
Definition dap_segment (c : list byte) : Z := le16 c 8.
Definition dap_lba (c : list byte) : Z := le32 c 10 + 2 ^ 32 * le32 c 14.

End Ventoy.

(* ------------------------------------------------------------------ *)
(** ** The build ([main] without [--clean], [--no-iso] or [--no-vm]) *)

Module Build.

(** The output files of a build directory. *)
Record fs := mk_fs {
  disk_img : option (list byte);     (* build/portix.img *)
  raw_copy : option (list byte);     (* dist/portix.img *)
  iso_img : option (list byte);      (* dist/portix.iso *)
  vsim_img : option (list byte)      (* dist/portix-ventoy-sim.img *)
}.

(** Where a build stops with a non-zero exit. *)
Inductive phase :=
| BootSize          (** assemble_boot: boot.bin is not 512 bytes *)
| Stage2Size        (** assemble_stage2: stage2.bin is not 64*512 bytes *)
| PartitionPack     (** create_raw: struct.error in the injection *)
| VentoyPack.       (** create_ventoy_sim: struct.error *)

Inductive outcome :=
| Aborted (p : phase) (after : fs)
| Built (after : fs).

(** [main] from the artifacts the toolchain produced: [boot] is
    build/boot.bin, [kernel] build/kernel.bin, [stage2] build/stage2.bin
    (assembled with the kernel's sector count).  The toolchain runs and
    [create_vdi]/[create_vmdk] (external, non-fatal, separate files) are
    not part of the model. *)
Definition full_build (ts : Iso.tools) (clock : Z) (st : fs)
    (boot stage2 kernel : list byte) : outcome :=
  if negb (length boot =? 512)%nat then Aborted BootSize st else
  let ks := Raw.sectors_of kernel in
  if negb (length stage2 =? 64 * 512)%nat then Aborted Stage2Size st else
  match snd (Raw.create_raw ks boot stage2 kernel) with
  | None =>
      Aborted PartitionPack
        (mk_fs (Some (Raw.assemble_raw ks boot stage2 kernel))
               (raw_copy st) (iso_img st) (vsim_img st))
  | Some img =>
      let iso := Iso.create_iso ts clock img (iso_img st) in
      match Ventoy.create_ventoy_sim img with
      | None => Aborted VentoyPack (mk_fs (Some img) (Some img) iso (vsim_img st))
      | Some c => Built (mk_fs (Some img) (Some img) iso (Some c))
      end
  end.

(** The build stopped before [create_raw] planned the layout. *)
Definition aborted_before_plan (o : outcome) : bool :=
  match o with
  | Aborted BootSize _ | Aborted Stage2Size _ => true
  | _ => false
  end.

(** The raw image, optical image and nested container of a finished
    build. *)
Definition outputs (o : outcome)
  : option (option (list byte) * option (list byte) * option (list byte)) :=
  match o with
  | Built st => Some (disk_img st, iso_img st, vsim_img st)
  | Aborted _ _ => None
  end.

End Build.

(* ------------------------------------------------------------------ *)
(** ** Sample toolchain outputs *)

Module Sample.

(** Artifacts of the shape the toolchain produces: a boot sector ending in
    its 0x55 0xAA signature, a 64-sector stage2 padded with NOPs, and a
    1500-byte kernel (three sectors). *)
Definition boot_bin : list byte := zeros 510 ++ [Byte.x55; Byte.xaa].
Definition stage2_bin : list byte := repeat Byte.x90 (64 * 512).
Definition kernel_bin : list byte := repeat Byte.xcc 1500.

End Sample.

(* ------------------------------------------------------------------ *)
(** ** Command line and host programs ([find_tool], [check_tools],
       [arg], [arg_val]) *)

Module Cli.
Import (notations) Stdlib.Strings.String Stdlib.Strings.Ascii.
Local Open Scope string_scope.

(** [shutil.which]: the path of a program on the host, if any (never the
    empty string). *)
Definition which := String.string -> option String.string.

(** [find_tool]: the first of [names] found on the host. *)
Fixpoint find_tool (w : which) (names : list String.string)
  : option String.string :=
  match names with
  | [] => None
  | n :: ns =>
      match w n with
      | Some p => Some p
      | None => find_tool w ns
      end
  end.

Definition required_tools : list String.string :=
  ["nasm"; "cargo"; "qemu-system-x86_64"].

Definition objcopy_names : list String.string :=
  ["objcopy"; "x86_64-w64-mingw32-objcopy"; "x86_64-linux-gnu-objcopy"].

(** The first loop of [check_tools]: [false] at the first missing tool
    ([sys.exit(1)]). *)
Fixpoint all_found (w : which) (ts : list String.string) : bool :=
  match ts with
  | [] => true
  | t :: r =>
      match find_tool w [t] with
      | Some _ => all_found w r
      | None => false
      end
  end.

(** [check_tools]: the [objcopy] it stores in [_OBJCOPY], or [None] for
    [sys.exit(1)].  The loop over the optional tools only logs. *)
Definition check_tools (w : which) : option String.string :=
  if all_found w required_tools then find_tool w objcopy_names else None.

(** [arg(name)]: [name in sys.argv]. *)
Definition arg (argv : list String.string) (name : String.string) : bool :=
  existsb (String.eqb name) argv.

(** [s.split("=", 1)[1]]: the text after the first ["="] ([None], an
    [IndexError], when there is none). *)
Fixpoint after_eq (s : String.string) : option String.string :=
  match s with
  | String.EmptyString => None
  | String.String c r => if Ascii.eqb c "="%char then Some r else after_eq r
  end.

(** [arg_val(prefix)] *)
Fixpoint arg_val (argv : list String.string) (prefix : String.string)
  : option String.string :=
  match argv with
  | [] => None
  | a :: r =>
      if String.prefix (prefix ++ "=") a then after_eq a else arg_val r prefix
  end.

(** [mode = arg_val("--mode") or "raw"]: an empty value is falsy. *)
Definition qemu_mode (argv : list String.string) : String.string :=
  match arg_val argv "--mode" with
  | Some m => if String.eqb m "" then "raw" else m
  | None => "raw"
  end.

End Cli.

(* ------------------------------------------------------------------ *)
(** ** [main] with its flags, [create_vdi], [create_vmdk], [run_qemu] *)

Module Main.
Import (notations) Stdlib.Strings.String.
Local Open Scope string_scope.
Import Cli.

(** The disk formats [qemu-img convert] is asked for. *)
Inductive vm_format := Vdi | Vmdk.

(** [qemu-img convert -f raw -O fmt]: exit status and the file it leaves. *)
Definition converter := vm_format -> list byte -> bool * option (list byte).

(** [create_vdi] / [create_vmdk]: the output file after the step, given
    the raw image and the file before.  Without [qemu-img] nothing is
    touched; otherwise the old file is unlinked and the result is
    whatever the conversion wrote. *)
Definition create_converted (qi : option converter) (fmt : vm_format)
    (disk : list byte) (old : option (list byte)) : option (list byte) :=
  match qi with
  | None => old
  | Some f => snd (f fmt disk)
  end.

(** The output files of a build directory, with the virtual-machine disks. *)
Record files := mk_files {
  out : Build.fs;
  vdi_img : option (list byte);     (* dist/portix.vdi *)
  vmdk_img : option (list byte)     (* dist/portix.vmdk *)
}.

Definition no_files : files :=
  mk_files (Build.mk_fs None None None None) None None.

(** The host: [shutil.which], the ISO programs and [qemu-img] that
    [find_tool] finds on it, and the wall clock. *)
Record host := mk_host {
  host_which : which;
  host_iso : Iso.tools;
  host_qemu_img : option converter;
  host_clock : Z
}.

(** The drive each QEMU process started by [run_qemu] gets. *)
Inductive drive := DiskImg | IsoImg | VsimImg.

(** [run_qemu]: the drives of the QEMU processes it starts (for [both], one per thread), and
    the files afterwards ([None]: [create_ventoy_sim] raised). *)
Definition run_qemu (argv : list String.string) (st : Build.fs)
  : option (list drive * Build.fs) :=
  let iso_target :=
    match Build.iso_img st with Some _ => IsoImg | None => DiskImg end in
  let mode := qemu_mode argv in
  if String.eqb mode "iso" then Some ([iso_target], st)
  else if String.eqb mode "ventoy-sim" then
    match Build.vsim_img st with
    | Some _ => Some ([VsimImg], st)
    | None =>
        match Build.disk_img st with
        | None => Some ([], st)     (* "portix.img no existe"; then "[ERROR]" *)
        | Some d =>
            match Ventoy.create_ventoy_sim d with
            | None => None
            | Some c =>
                Some ([VsimImg],
                      Build.mk_fs (Build.disk_img st) (Build.raw_copy st)
                                  (Build.iso_img st) (Some c))
            end
        end
    end
  else if String.eqb mode "both" then Some ([DiskImg; iso_target], st)
  else Some ([DiskImg], st).

(** Where [main] stops with an exception or a non-zero exit. *)
Inductive stop :=
| ToolsMissing                (** [check_tools]: [sys.exit(1)] *)
| AtPhase (p : Build.phase)   (** the phases of [Build.full_build] *)
| QemuSetup.                  (** [run_qemu]: [create_ventoy_sim] raised *)

Inductive result :=
| Cleaned (after : files)
| Stopped (s : stop) (after : files)
| Finished (after : files) (booted : option (list drive)).

(** [main] on [sys.argv] = [argv], from the artifacts the toolchain
    produces ([boot], [stage2], [kernel], as in [Build.full_build]). *)
Definition main (argv : list String.string) (h : host) (st : files)
    (boot stage2 kernel : list byte) : result :=
  if arg argv "--clean" then Cleaned no_files else
  match check_tools (host_which h) with
  | None => Stopped ToolsMissing st
  | Some _ =>
  let o := out st in
  if negb (length boot =? 512)%nat then Stopped (AtPhase Build.BootSize) st else
  let ks := Raw.sectors_of kernel in
  if negb (length stage2 =? 64 * 512)%nat
  then Stopped (AtPhase Build.Stage2Size) st else
  match snd (Raw.create_raw ks boot stage2 kernel) with
  | None =>
      Stopped (AtPhase Build.PartitionPack)
        (mk_files (Build.mk_fs (Some (Raw.assemble_raw ks boot stage2 kernel))
                               (Build.raw_copy o) (Build.iso_img o)
                               (Build.vsim_img o))
                  (vdi_img st) (vmdk_img st))
  | Some img =>
      let iso :=
        if arg argv "--no-iso" then Build.iso_img o
        else Iso.create_iso (host_iso h) (host_clock h) img (Build.iso_img o) in
      let vdi :=
        if arg argv "--no-vm" then vdi_img st
        else create_converted (host_qemu_img h) Vdi img (vdi_img st) in
      let vmdk :=
        if arg argv "--no-vm" then vmdk_img st
        else create_converted (host_qemu_img h) Vmdk img (vmdk_img st) in
      match Ventoy.create_ventoy_sim img with
      | None =>
          Stopped (AtPhase Build.VentoyPack)
            (mk_files (Build.mk_fs (Some img) (Some img) iso (Build.vsim_img o))
                      vdi vmdk)
      | Some c =>
          let o' := Build.mk_fs (Some img) (Some img) iso (Some c) in
          if arg argv "--no-run" then Finished (mk_files o' vdi vmdk) None
          else
            match run_qemu argv o' with
            | None => Stopped QemuSetup (mk_files o' vdi vmdk)
            | Some (ds, o'') => Finished (mk_files o'' vdi vmdk) (Some ds)
            end
      end
  end
  end.


End Main.

(* ================================================================== *)
(** * Facts *)

(** ** Buffers *)

Module PyFacts.

Lemma length_slice_assign b i j v :
  (i <= j)%nat -> (j <= length b)%nat -> length v = (j - i)%nat ->
  length (slice_assign b i j v) = length b.
Proof.
  intros Hij Hj Hv. unfold slice_assign.
  rewrite !length_app, length_firstn, length_skipn. lia.
Qed.

Lemma nth_error_slice_lo b i j v k :
  (k < i)%nat -> (i <= length b)%nat ->
  nth_error (slice_assign b i j v) k = nth_error b k.
Proof.
  intros Hk Hi. unfold slice_assign.
  rewrite nth_error_app1 by (rewrite length_firstn; lia).
  rewrite nth_error_firstn. destruct (Nat.ltb_spec k i); [reflexivity | lia].
Qed.

Lemma nth_error_slice_in b i j v k :
  (i <= k < i + length v)%nat -> (i <= length b)%nat ->
  nth_error (slice_assign b i j v) k = nth_error v (k - i).
Proof.
  intros Hk Hi. unfold slice_assign.
  rewrite nth_error_app2 by (rewrite length_firstn; lia).
  rewrite length_firstn, nth_error_app1 by lia.
  f_equal. lia.
Qed.

Lemma nth_error_slice_hi b i j v k :
  (i <= j)%nat -> (j <= length b)%nat -> length v = (j - i)%nat ->
  (j <= k)%nat ->
  nth_error (slice_assign b i j v) k = nth_error b k.
Proof.
  intros Hij Hj Hv Hk. unfold slice_assign.
  rewrite nth_error_app2 by (rewrite length_firstn; lia).
  rewrite length_firstn, nth_error_app2 by lia.
  rewrite nth_error_skipn. f_equal. lia.
Qed.

(** A [write] that starts inside the file is a slice assignment. *)
Lemma write_at_slice f off d :
  (off <= length f)%nat ->
  write_at f off d = slice_assign f off (off + length d) d.
Proof.
  intros H. unfold write_at, slice_assign.
  replace (off - length f)%nat with 0%nat by lia.
  replace (Nat.max off (off + length d)) with (off + length d)%nat by lia.
  reflexivity.
Qed.

(** Reading [v] back from [l] at [off]. *)
Lemma slice_read (l v : list byte) off :
  (forall k, (k < length v)%nat -> nth_error l (off + k) = nth_error v k) ->
  firstn (length v) (skipn off l) = v.
Proof.
  intros H. apply nth_error_ext. intros k.
  rewrite nth_error_firstn, nth_error_skipn.
  destruct (Nat.ltb_spec k (length v)).
  - apply H; assumption.
  - symmetry. apply nth_error_None. assumption.
Qed.

Lemma nth_of_nth_error {A} (l l' : list A) i j d :
  nth_error l i = nth_error l' j -> nth i l d = nth j l' d.
Proof.
  intros H. destruct (nth_error l i) as [x|] eqn:E.
  - rewrite (nth_error_nth _ _ _ E). symmetry in H.
    rewrite (nth_error_nth _ _ _ H). reflexivity.
  - apply nth_error_None in E. symmetry in H. apply nth_error_None in H.
    rewrite !nth_overflow by assumption. reflexivity.
Qed.

Lemma u8_eq l l' i j :
  nth_error l i = nth_error l' j -> u8 l i = u8 l' j.
Proof. intros H. unfold u8. f_equal. apply nth_of_nth_error. exact H. Qed.

Lemma nth_error_zeros n k :
  (k < n)%nat -> nth_error (zeros n) k = Some Byte.x00.
Proof. intros H. unfold zeros. apply nth_error_repeat. exact H. Qed.

Lemma length_zeros n : length (zeros n) = n.
Proof. apply repeat_length. Qed.

Lemma bval_bof z : bval (bof z) = z mod 256.
Proof.
  unfold bval, bof.
  assert (Hr : 0 <= z mod 256 < 256) by (apply Z.mod_pos_bound; lia).
  pose proof (Byte.to_of_N_option_map (Z.to_N (z mod 256))) as H.
  destruct (Byte.of_N (Z.to_N (z mod 256))) as [b|] eqn:E.
  - apply Byte.to_of_N in E. rewrite E. apply Z2N.id. lia.
  - simpl in H. replace (Z.to_N (z mod 256) <=? 255)%N with true in H
      by (symmetry; apply N.leb_le; lia).
    discriminate.
Qed.

Lemma bval_range b : 0 <= bval b < 256.
Proof.
  unfold bval. pose proof (Byte.to_N_bounded b). lia.
Qed.

Lemma pack_u32_ok v :
  0 <= v < 2 ^ 32 ->
  pack_u32 v = Some [bof v; bof (v / 2 ^ 8); bof (v / 2 ^ 16); bof (v / 2 ^ 24)].
Proof.
  intros H. unfold pack_u32.
  replace ((0 <=? v) && (v <? 2 ^ 32)) with true; [reflexivity|].
  symmetry. apply andb_true_intro. split; [apply Z.leb_le | apply Z.ltb_lt]; lia.
Qed.

Lemma pack_u32_none v :
  ~ (0 <= v < 2 ^ 32) -> pack_u32 v = None.
Proof.
  intros H. unfold pack_u32.
  destruct (Z.leb_spec 0 v), (Z.ltb_spec v (2 ^ 32)); simpl; try reflexivity.
  exfalso. lia.
Qed.

(** The four packed bytes read back as [v]. *)
Lemma le32_pack v :
  0 <= v < 2 ^ 32 ->
  le32 [bof v; bof (v / 2 ^ 8); bof (v / 2 ^ 16); bof (v / 2 ^ 24)] 0 = v.
Proof.
  intros H. unfold le32, le16, u8. cbn [nth Nat.add]. rewrite !bval_bof.
  assert (E1 : v = 2 ^ 8 * (v / 2 ^ 8) + v mod 2 ^ 8)
    by (apply Z.div_mod; lia).
  assert (E2 : v / 2 ^ 8 = 2 ^ 8 * (v / 2 ^ 16) + (v / 2 ^ 8) mod 2 ^ 8).
  { replace (v / 2 ^ 16) with (v / 2 ^ 8 / 2 ^ 8)
      by (rewrite Z.div_div by lia; reflexivity).
    apply Z.div_mod; lia. }
  assert (E3 : v / 2 ^ 16 = 2 ^ 8 * (v / 2 ^ 24) + (v / 2 ^ 16) mod 2 ^ 8).
  { replace (v / 2 ^ 24) with (v / 2 ^ 16 / 2 ^ 8)
      by (rewrite Z.div_div by lia; reflexivity).
    apply Z.div_mod; lia. }
  assert (E4 : (v / 2 ^ 24) mod 256 = v / 2 ^ 24).
  { apply Z.mod_small. split; [apply Z.div_pos; lia|].
    apply Z.div_lt_upper_bound; lia. }
  change (2 ^ 8) with 256 in *. rewrite E4. lia.
Qed.

End PyFacts.

(** ** Partition entry and injection *)

Module MbrFacts.
Import PyFacts Mbr.

Lemma partition_entry_some t :
  0 <= t - 1 < 2 ^ 32 ->
  exists p, partition_entry t = Some p /\ length p = 16%nat /\
    nth_error p 0 = Some Byte.x80 /\ le32 p 8 = 1 /\ le32 p 12 = t - 1.
Proof.
  intros Ht. unfold partition_entry, pack_into_u32.
  rewrite (pack_u32_ok 1) by lia. rewrite (pack_u32_ok (t - 1)) by lia.
  eexists. split; [reflexivity|].
  split; [reflexivity|]. split; [reflexivity|]. split; [reflexivity|].
  transitivity (le32 [bof (t - 1); bof ((t - 1) / 2 ^ 8);
                      bof ((t - 1) / 2 ^ 16); bof ((t - 1) / 2 ^ 24)] 0).
  - reflexivity.
  - apply le32_pack. lia.
Qed.

Lemma partition_entry_none t :
  ~ (0 <= t - 1 < 2 ^ 32) -> partition_entry t = None.
Proof.
  intros Ht. unfold partition_entry, pack_into_u32 at 2.
  rewrite (pack_u32_none (t - 1)) by exact Ht.
  destruct (pack_into_u32 _ 8 1); reflexivity.
Qed.

Lemma partition_entry_length t p :
  partition_entry t = Some p -> length p = 16%nat.
Proof.
  intros H. destruct (Z.le_gt_cases 0 (t - 1)) as [H0|H0];
  [destruct (Z.lt_ge_cases (t - 1) (2 ^ 32)) as [H1|H1]|].
  - destruct (partition_entry_some t) as (p' & E & L & _); [lia|].
    rewrite E in H. injection H as <-. exact L.
  - rewrite partition_entry_none in H by lia. discriminate.
  - rewrite partition_entry_none in H by lia. discriminate.
Qed.

(** [_inject_partition_table] on an image of at least one sector. *)
Lemma inject_spec data :
  (512 <= length data)%nat ->
  let T := Z.of_nat (length data) / 512 in
  inject_partition_table data =
    ((if signature_bad data then [WarnSignature] else []) ++
       match partition_entry T with Some _ => [TableInjected] | None => [] end,
     match partition_entry T with
     | Some p => Some (slice_assign data 446 (446 + 16) p)
     | None => None
     end).
Proof.
  intros H T. unfold inject_partition_table, signature_bad.
  rewrite (nth_error_nth' data Byte.x00) by lia.
  rewrite (nth_error_nth' data Byte.x00 (n := 511)) by lia.
  fold T.
  destruct (Byte.eqb (nth 510 data Byte.x00) Byte.x55);
  destruct (Byte.eqb (nth 511 data Byte.x00) Byte.xaa);
  cbn [negb orb app];
  destruct (partition_entry T); reflexivity.
Qed.

Lemma u8_slice_in b i j v k :
  (i <= k < i + length v)%nat -> (i <= length b)%nat ->
  u8 (slice_assign b i j v) k = u8 v (k - i).
Proof. intros H1 H2. apply u8_eq. apply nth_error_slice_in; assumption. Qed.

End MbrFacts.

Module Injection.
Import PyFacts Mbr MbrFacts.

Lemma le32_slice_in (b v : list byte) i j k :
  (i <= length b)%nat -> (i <= k)%nat -> (k + 4 <= i + length v)%nat ->
  le32 (slice_assign b i j v) k = le32 v (k - i).
Proof.
  intros H1 H2 H3. unfold le32, le16.
  rewrite !u8_slice_in by lia.
  replace (S k - i)%nat with (S (k - i)) by lia.
  replace (k + 2 - i)%nat with (k - i + 2)%nat by lia.
  replace (S (k + 2) - i)%nat with (S (k - i + 2)) by lia.
  reflexivity.
Qed.

Lemma sectors_of_image (data : list byte) N :
  length data = (512 * N)%nat -> Z.of_nat (length data) / 512 = Z.of_nat N.
Proof.
  intros H. rewrite H, Nat2Z.inj_mul, Z.mul_comm. apply Z.div_mul. lia.
Qed.

(** C5. For a raw image of exactly [N >= 2] sectors, the entry written at
    0x1BE is marked bootable (0x80), starts at LBA 1 and spans [N - 1]
    sectors, and for [N] in {2, 64, 16065, 16065*2} its ending CHS bytes
    decode (63 sectors per track, 255 heads) to LBA [N - 1].  The
    injection raises, so that no entry is written, only when [N - 1] does
    not fit the 32-bit count field. *)
Theorem inject_entry_fields (data : list byte) (N : nat) :
  length data = (512 * N)%nat -> (2 <= N)%nat ->
  match snd (inject_partition_table data) with
  | Some d =>
      entry_flag d = 128 /\ entry_start_lba d = 1 /\
      entry_num_sectors d = Z.of_nat N - 1 /\
      (In (Z.of_nat N) [2; 64; 16065; 16065 * 2] ->
       entry_end_chs_lba d = Z.of_nat N - 1)
  | None => 2 ^ 32 < Z.of_nat N
  end.
Proof.
  intros HL HN. pose proof (sectors_of_image data N HL) as HT.
  rewrite inject_spec by lia. cbv zeta. rewrite HT. cbn [snd].
  destruct (Z.lt_ge_cases (Z.of_nat N - 1) (2 ^ 32)) as [Hs|Hs].
  - destruct (partition_entry_some (Z.of_nat N)) as (p & E & L & F0 & F8 & F12);
      [lia|].
    rewrite E.
    split; [|split; [|split]].
    + unfold entry_flag. rewrite u8_slice_in by lia.
      unfold u8. rewrite (nth_error_nth _ _ _ F0). reflexivity.
    + unfold entry_start_lba. rewrite le32_slice_in by lia. exact F8.
    + unfold entry_num_sectors. rewrite le32_slice_in by lia. exact F12.
    + intros Hin.
      destruct Hin as [H|[H|[H|[H|[]]]]]; rewrite <- H in E |- *;
        vm_compute in E; injection E as <-;
        unfold entry_end_chs_lba; rewrite !u8_slice_in by (cbn [length]; lia);
        vm_compute; reflexivity.
  - rewrite partition_entry_none by lia. lia.
Qed.

Lemma inject_entry_fields_witness :
  length (zeros 1024) = (512 * 2)%nat /\ (2 <= 2)%nat /\
  match snd (inject_partition_table (zeros 1024)) with
  | Some d =>
      entry_flag d = 128 /\ entry_start_lba d = 1 /\
      entry_num_sectors d = Z.of_nat 2 - 1 /\
      (In (Z.of_nat 2) [2; 64; 16065; 16065 * 2] ->
       entry_end_chs_lba d = Z.of_nat 2 - 1)
  | None => 2 ^ 32 < Z.of_nat 2
  end.
Proof.
  split; [reflexivity|]. split; [lia|].
  apply inject_entry_fields; [reflexivity | lia].
Defined.

(** C8. The boot signature only decides the warning: on an image of at
    least one sector the injection logs the warning exactly when bytes
    0x1FE-0x1FF are not 0x55 0xAA, and, valid signature or not, it writes
    the partition entry computed from the sector count at 0x1BE and
    returns normally; the one way it fails is a sector count too large
    for the 32-bit field, which does not involve the signature. *)
Theorem inject_signature_nonfatal (data : list byte) :
  (512 <= length data)%nat ->
  let T := Z.of_nat (length data) / 512 in
  (In WarnSignature (fst (inject_partition_table data)) <->
   signature_bad data = true) /\
  match snd (inject_partition_table data) with
  | Some d =>
      In TableInjected (fst (inject_partition_table data)) /\
      exists p, partition_entry T = Some p /\ firstn 16 (skipn 446 d) = p
  | None => 2 ^ 32 < T
  end.
Proof.
  intros H T. rewrite inject_spec by lia. fold T. cbn [fst snd].
  destruct (partition_entry T) as [p|] eqn:E.
  - pose proof (partition_entry_length _ _ E) as L.
    split; [|split].
    + destruct (signature_bad data); cbn; intuition congruence.
    + apply in_or_app. right. left. reflexivity.
    + exists p. split; [reflexivity|]. rewrite <- L at 1.
      apply slice_read. intros k Hk.
      rewrite nth_error_slice_in by lia. f_equal. lia.
  - split.
    + destruct (signature_bad data); cbn; intuition congruence.
    + destruct (Z.lt_ge_cases (T - 1) (2 ^ 32)) as [Hs|Hs]; [|lia].
      assert (1 <= T).
      { unfold T. apply Z.div_le_lower_bound; lia. }
      destruct (partition_entry_some T) as (p & E' & _); [lia|].
      congruence.
Qed.

Lemma inject_signature_nonfatal_witness :
  (512 <= length (zeros 512))%nat /\
  (In WarnSignature (fst (inject_partition_table (zeros 512))) <->
   signature_bad (zeros 512) = true) /\
  match snd (inject_partition_table (zeros 512)) with
  | Some d =>
      In TableInjected (fst (inject_partition_table (zeros 512))) /\
      exists p, partition_entry (Z.of_nat (length (zeros 512)) / 512) = Some p /\
                firstn 16 (skipn 446 d) = p
  | None => 2 ^ 32 < Z.of_nat (length (zeros 512)) / 512
  end.
Proof.
  assert (H : (512 <= length (zeros 512))%nat) by (vm_compute; lia).
  split; [exact H|]. exact (inject_signature_nonfatal (zeros 512) H).
Defined.

(** C10. On an image of at least one sector the injection changes only
    bytes 0x1BE-0x1CD: the file keeps its length and every other byte
    (also when the call raises, as it then writes nothing). *)
Theorem inject_frame (data : list byte) :
  (512 <= length data)%nat ->
  length (file_after data) = length data /\
  forall i, (i < 446 \/ 462 <= i)%nat ->
    nth_error (file_after data) i = nth_error data i.
Proof.
  intros H. unfold file_after. rewrite inject_spec by lia. cbn [snd].
  destruct (partition_entry _) as [p|] eqn:E; [|split; reflexivity].
  pose proof (partition_entry_length _ _ E) as L.
  split.
  - apply length_slice_assign; lia.
  - intros i [Hi|Hi].
    + apply nth_error_slice_lo; lia.
    + apply nth_error_slice_hi; lia.
Qed.

Lemma inject_frame_witness :
  (512 <= length (zeros 512))%nat /\
  length (file_after (zeros 512)) = length (zeros 512) /\
  forall i, (i < 446 \/ 462 <= i)%nat ->
    nth_error (file_after (zeros 512)) i = nth_error (zeros 512) i.
Proof.
  assert (H : (512 <= length (zeros 512))%nat) by (vm_compute; lia).
  split; [exact H|]. exact (inject_frame (zeros 512) H).
Defined.

End Injection.

(** ** Layout and raw image *)

Module RawFacts.
Import PyFacts Raw.

Lemma ceil_div_spec a b :
  0 < b -> b * (ceil_div a b - 1) < a <= b * ceil_div a b.
Proof.
  intros Hb. unfold ceil_div.
  pose proof (Z.div_mod (a + b - 1) b ltac:(lia)) as E.
  pose proof (Z.mod_pos_bound (a + b - 1) b Hb) as R.
  nia.
Qed.

(** C6. The planned layout: [ks = ceil(n / 512)] kernel sectors for a
    kernel of [n] bytes, [1 + 64 + ks + 64] sectors in all, and an image of
    [max(8, ceil(total * 512 / 2^20))] megabytes; a 1500-byte kernel gives
    3 sectors, 132 sectors in all and an 8 MB image. *)
Theorem layout_plan (kernel : list byte) :
  let n := Z.of_nat (length kernel) in
  let ks := sectors_of kernel in
  (512 * (ks - 1) < n <= 512 * ks) /\
  layout_total ks = 1 + 64 + ks + 64 /\
  (exists c, (c - 1) * (1024 * 1024) < layout_total ks * 512
             <= c * (1024 * 1024) /\
             layout_mb ks = Z.max 8 c) /\
  layout_nbytes ks = layout_mb ks * 1024 * 1024 /\
  (sectors_of (repeat Byte.xcc 1500) = 3 /\ layout_total 3 = 132 /\
   layout_mb 3 = 8).
Proof.
  intros n ks. split; [|split; [|split; [|split]]].
  - apply ceil_div_spec. lia.
  - unfold layout_total, raw_layout, KERNEL_LBA_START, STAGE2_SECTORS,
      KERNEL_MARGIN. cbn [fst]. lia.
  - exists (ceil_div (layout_total ks * 512) (1024 * 1024)). split.
    + pose proof (ceil_div_spec (layout_total ks * 512) (1024 * 1024)
                    ltac:(lia)). lia.
    + unfold layout_mb, layout_total, raw_layout, DISK_MIN_MB. cbn [fst snd].
      apply Z.max_comm.
  - reflexivity.
  - vm_compute. repeat split.
Qed.

Lemma kernel_off : Z.to_nat (KERNEL_LBA_START * 512) = (65 * 512)%nat.
Proof. reflexivity. Qed.

(** The image covers the three regions and the margin. *)
Lemma layout_covers kernel :
  Z.of_nat (length kernel) + 65 * 512 + 64 * 512 <=
  layout_nbytes (sectors_of kernel).
Proof.
  pose proof (ceil_div_spec (Z.of_nat (length kernel)) 512 ltac:(lia)) as K.
  unfold sectors_of in *.
  set (ks := ceil_div (Z.of_nat (length kernel)) 512) in *.
  unfold layout_nbytes, raw_layout, KERNEL_LBA_START, STAGE2_SECTORS,
    KERNEL_MARGIN, DISK_MIN_MB. cbn [snd].
  set (t := 1 + 64 + ks + 64).
  pose proof (ceil_div_spec (t * 512) (1024 * 1024) ltac:(lia)) as M.
  pose proof (Z.le_max_l (ceil_div (t * 512) (1024 * 1024)) 8).
  unfold t in *. nia.
Qed.

Lemma layout_nbytes_nonneg ks : 0 <= layout_nbytes ks.
Proof.
  unfold layout_nbytes, raw_layout, DISK_MIN_MB. cbn [snd].
  pose proof (Z.le_max_r (ceil_div ((KERNEL_LBA_START + ks + KERNEL_MARGIN)
                                     * 512) (1024 * 1024)) 8).
  lia.
Qed.

Section Assembly.
Variables boot stage2 kernel : list byte.
Hypothesis Hboot : length boot = 512%nat.
Hypothesis Hstage2 : length stage2 = (64 * 512)%nat.

Let ks := sectors_of kernel.
Let L := Z.to_nat (layout_nbytes ks).

Lemma L_bound : (65 * 512 + length kernel + 64 * 512 <= L)%nat.
Proof.
  pose proof (layout_covers kernel). unfold L, ks. lia.
Qed.

(** The four regions of the assembled image, before the injection. *)
Lemma assemble_raw_bytes :
  let A := assemble_raw ks boot stage2 kernel in
  length A = L /\
  (forall i, (i < 512)%nat -> nth_error A i = nth_error boot i) /\
  (forall i, (512 <= i < 65 * 512)%nat ->
     nth_error A i = nth_error stage2 (i - 512)) /\
  (forall i, (65 * 512 <= i < 65 * 512 + length kernel)%nat ->
     nth_error A i = nth_error kernel (i - 65 * 512)) /\
  (forall i, (65 * 512 + length kernel <= i < L)%nat ->
     nth_error A i = Some Byte.x00).
Proof.
  pose proof L_bound as HL.
  unfold assemble_raw. fold L. rewrite kernel_off.
  set (f0 := zeros L).
  assert (L0 : length f0 = L) by apply length_zeros.
  rewrite (write_at_slice f0) by lia. rewrite Hboot.
  set (f1 := slice_assign f0 0 (0 + 512) boot).
  assert (L1 : length f1 = L)
    by (unfold f1; rewrite length_slice_assign; lia).
  rewrite (write_at_slice f1) by lia. rewrite Hstage2.
  set (f2 := slice_assign f1 512 (512 + 64 * 512) stage2).
  assert (L2 : length f2 = L)
    by (unfold f2; rewrite length_slice_assign; lia).
  rewrite (write_at_slice f2) by lia.
  set (f3 := slice_assign f2 (65 * 512) (65 * 512 + length kernel) kernel).
  assert (L3 : length f3 = L)
    by (unfold f3; rewrite length_slice_assign; lia).
  cbv zeta. split; [exact L3|]. split; [|split; [|split]].
  - intros i Hi.
    unfold f3; rewrite nth_error_slice_lo by lia.
    unfold f2; rewrite nth_error_slice_lo by lia.
    unfold f1; rewrite nth_error_slice_in by lia.
    f_equal. lia.
  - intros i Hi.
    unfold f3; rewrite nth_error_slice_lo by lia.
    unfold f2; rewrite nth_error_slice_in by lia. reflexivity.
  - intros i Hi. unfold f3. apply nth_error_slice_in; lia.
  - intros i Hi.
    unfold f3; rewrite nth_error_slice_hi by lia.
    unfold f2; rewrite nth_error_slice_hi by lia.
    unfold f1; rewrite nth_error_slice_hi by lia.
    apply nth_error_zeros. lia.
Qed.

Lemma length_assemble_raw :
  length (assemble_raw ks boot stage2 kernel) = L.
Proof. apply assemble_raw_bytes. Qed.

(** [create_raw] is the injection into the assembled image. *)
Lemma create_raw_spec :
  snd (create_raw ks boot stage2 kernel) =
  match Mbr.partition_entry (layout_nbytes ks / 512) with
  | Some p => Some (slice_assign (assemble_raw ks boot stage2 kernel)
                                 446 (446 + 16) p)
  | None => None
  end.
Proof.
  pose proof L_bound as HL.
  unfold create_raw. rewrite MbrFacts.inject_spec
    by (rewrite length_assemble_raw; lia).
  rewrite length_assemble_raw. unfold L.
  rewrite Z2Nat.id by apply layout_nbytes_nonneg. reflexivity.
Qed.

End Assembly.

End RawFacts.

Module RawClaims.
Import PyFacts Raw RawFacts.

(** The regions of the finished image, for the contract sizes of boot.bin
    and stage2.bin that [assemble_boot] and [assemble_stage2] enforce. *)
Lemma finished_raw_regions (boot stage2 kernel : list byte) :
  length boot = 512%nat -> length stage2 = (64 * 512)%nat ->
  forall p, Mbr.partition_entry (layout_nbytes (sectors_of kernel) / 512) = Some p ->
  let img := slice_assign (assemble_raw (sectors_of kernel) boot stage2 kernel)
                          446 (446 + 16) p in
  firstn 446 img = firstn 446 boot /\
  firstn 50 (skipn 462 img) = skipn 462 boot /\
  firstn (length stage2) (skipn 512 img) = stage2 /\
  firstn (length kernel) (skipn (Z.to_nat (KERNEL_LBA_START * 512)) img) = kernel /\
  firstn 16 (skipn 446 img) = p /\
  (forall i, (65 * 512 + length kernel <= i < Z.to_nat (layout_nbytes (sectors_of kernel)))%nat ->
     nth_error img i = Some Byte.x00).
Proof.
  intros Hb Hs p E img.
  pose proof (MbrFacts.partition_entry_length _ _ E) as Lp.
  pose proof (L_bound boot stage2 kernel Hb Hs) as HL.
  destruct (assemble_raw_bytes boot stage2 kernel Hb Hs)
    as (LA & B0 & B1 & B2 & B3).
  set (A := assemble_raw (sectors_of kernel) boot stage2 kernel) in *.
  split; [|split; [|split; [|split; [|split]]]].
  - apply nth_error_ext. intros i. rewrite !nth_error_firstn.
    destruct (Nat.ltb_spec i 446); [|reflexivity].
    unfold img. rewrite nth_error_slice_lo by lia. apply B0. lia.
  - assert (E50 : length (skipn 462 boot) = 50%nat)
      by (rewrite length_skipn; lia).
    pose proof (slice_read img (skipn 462 boot) 462) as R.
    rewrite E50 in R. apply R. intros k Hk.
    unfold img. rewrite nth_error_slice_hi by lia.
    rewrite nth_error_skipn. apply B0. lia.
  - apply slice_read. intros k Hk.
    unfold img. rewrite nth_error_slice_hi by lia.
    rewrite B1 by lia. f_equal. lia.
  - rewrite kernel_off. apply slice_read. intros k Hk.
    unfold img. rewrite nth_error_slice_hi by lia.
    rewrite B2 by lia. f_equal. lia.
  - rewrite <- Lp at 1. apply slice_read. intros k Hk.
    unfold img. rewrite nth_error_slice_in by lia. f_equal. lia.
  - intros i Hi. unfold img. rewrite nth_error_slice_hi by lia.
    apply B3. lia.
Qed.

Lemma create_raw_cases (boot stage2 kernel : list byte) :
  length boot = 512%nat -> length stage2 = (64 * 512)%nat ->
  snd (create_raw (sectors_of kernel) boot stage2 kernel) = None ->
  2 ^ 32 < layout_nbytes (sectors_of kernel) / 512.
Proof.
  intros Hb Hs H. rewrite (create_raw_spec boot stage2 kernel Hb Hs) in H.
  destruct (Mbr.partition_entry _) eqn:E; [discriminate|].
  pose proof (layout_covers kernel).
  set (T := layout_nbytes (sectors_of kernel) / 512) in *.
  assert (1 <= T) by (unfold T; apply Z.div_le_lower_bound; lia).
  destruct (Z.lt_ge_cases (T - 1) (2 ^ 32)); [|lia].
  destruct (MbrFacts.partition_entry_some T) as (p & E' & _); [lia|].
  congruence.
Qed.

(** C7 (amended). With boot.bin of 512 bytes and stage2.bin of 64*512
    bytes, the finished raw image holds stage2.bin at byte 512 and the
    kernel at byte 65*512 exactly, and boot.bin at byte 0 except bytes
    0x1BE-0x1CD, which hold the injected partition entry.  The image is
    not produced only when its sector count does not fit the entry's
    32-bit field. *)
Theorem raw_regions (boot stage2 kernel : list byte) :
  length boot = 512%nat -> length stage2 = (64 * 512)%nat ->
  match snd (create_raw (sectors_of kernel) boot stage2 kernel) with
  | Some img =>
      firstn 446 img = firstn 446 boot /\
      firstn 50 (skipn 462 img) = skipn 462 boot /\
      firstn (length stage2) (skipn 512 img) = stage2 /\
      firstn (length kernel)
        (skipn (Z.to_nat (KERNEL_LBA_START * 512)) img) = kernel /\
      (exists p, Mbr.partition_entry (layout_nbytes (sectors_of kernel) / 512)
                 = Some p /\ firstn 16 (skipn 446 img) = p)
  | None => 2 ^ 32 < layout_nbytes (sectors_of kernel) / 512
  end.
Proof.
  intros Hb Hs.
  destruct (snd (create_raw (sectors_of kernel) boot stage2 kernel)) eqn:H.
  - rewrite (create_raw_spec boot stage2 kernel Hb Hs) in H.
    destruct (Mbr.partition_entry _) as [p|] eqn:E; [|discriminate].
    injection H as <-.
    destruct (finished_raw_regions boot stage2 kernel Hb Hs p E)
      as (R0 & R1 & R2 & R3 & R4 & _).
    repeat split; try assumption. exists p. split; [reflexivity|assumption].
  - apply (create_raw_cases boot stage2 kernel Hb Hs H).
Qed.

Lemma raw_regions_witness :
  length Sample.boot_bin = 512%nat /\
  length Sample.stage2_bin = (64 * 512)%nat /\
  match snd (create_raw (sectors_of Sample.kernel_bin)
               Sample.boot_bin
               Sample.stage2_bin Sample.kernel_bin) return Prop with
  | Some img =>
      firstn 446 img = firstn 446 Sample.boot_bin /\
      firstn 50 (skipn 462 img) = skipn 462 Sample.boot_bin /\
      firstn (length Sample.stage2_bin) (skipn 512 img)
        = Sample.stage2_bin /\
      firstn (length Sample.kernel_bin)
        (skipn (Z.to_nat (KERNEL_LBA_START * 512)) img) = Sample.kernel_bin /\
      (exists p, Mbr.partition_entry
                   (layout_nbytes (sectors_of Sample.kernel_bin) / 512)
                 = Some p /\ firstn 16 (skipn 446 img) = p)
  | None => 2 ^ 32 < layout_nbytes (sectors_of Sample.kernel_bin) / 512
  end.
Proof.
  assert (Hb : length Sample.boot_bin = 512%nat)
    by reflexivity.
  assert (Hs : length Sample.stage2_bin = (64 * 512)%nat)
    by apply repeat_length.
  split; [exact Hb|]. split; [exact Hs|].
  exact (raw_regions Sample.boot_bin
           Sample.stage2_bin Sample.kernel_bin Hb Hs).
Defined.

(** C7 as stated fails: boot.bin does not read back from sector 0, whose
    bytes 0x1BE.. now hold the partition entry (here the boot flag 0x80
    over a zero byte of boot.bin). *)
Lemma raw_boot_region_overwritten :
  ~ (forall boot stage2 kernel : list byte,
       length boot = 512%nat -> length stage2 = (64 * 512)%nat ->
       match snd (create_raw (sectors_of kernel) boot stage2 kernel) with
       | Some img =>
           firstn 512 img = boot /\
           firstn (length stage2) (skipn 512 img) = stage2 /\
           firstn (length kernel)
             (skipn (Z.to_nat (KERNEL_LBA_START * 512)) img) = kernel
       | None => False
       end).
Proof.
  intros H.
  set (b := Sample.boot_bin).
  set (s := Sample.stage2_bin).
  set (k := Sample.kernel_bin).
  assert (Hb : length b = 512%nat) by reflexivity.
  assert (Hs : length s = (64 * 512)%nat) by apply repeat_length.
  specialize (H b s k Hb Hs).
  rewrite (create_raw_spec b s k Hb Hs) in H.
  destruct (Mbr.partition_entry _) as [p|] eqn:E; [|exact H].
  destruct H as [H _].
  pose proof (L_bound b s k Hb Hs) as HL.
  pose proof (length_assemble_raw b s k Hb Hs) as LA.
  vm_compute in E. injection E as <-.
  apply (f_equal (fun l => nth_error l 446)) in H.
  rewrite nth_error_firstn in H. cbn [Nat.ltb Nat.leb] in H.
  rewrite nth_error_slice_in in H by (cbn [length]; lia).
  vm_compute in H. discriminate H.
Qed.

Lemma plan_reached ts clock st (boot stage2 kernel : list byte) :
  length boot = 512%nat -> length stage2 = (64 * 512)%nat ->
  Build.aborted_before_plan (Build.full_build ts clock st boot stage2 kernel)
    = false.
Proof.
  intros Hb Hs. unfold Build.full_build.
  rewrite Hb, Hs, !Nat.eqb_refl. cbn [negb].
  destruct (snd (create_raw _ _ _ _));
    [destruct (Ventoy.create_ventoy_sim _)|]; reflexivity.
Qed.

(** C3 (amended). The build has no kernel ceiling: it stops before
    [create_raw] plans the layout exactly when boot.bin is not 512 bytes
    or stage2.bin not 64*512 bytes, whatever the kernel's size. *)
Theorem no_kernel_ceiling ts clock st (boot stage2 kernel : list byte) :
  Build.aborted_before_plan (Build.full_build ts clock st boot stage2 kernel)
    = true <->
  (length boot <> 512 \/ length stage2 <> 64 * 512)%nat.
Proof.
  unfold Build.full_build.
  destruct (length boot =? 512)%nat eqn:Hb; cbn [negb].
  - apply Nat.eqb_eq in Hb.
    destruct (length stage2 =? 64 * 512)%nat eqn:Hs; cbn [negb].
    + apply Nat.eqb_eq in Hs.
      split; [|intros [H|H]; contradiction].
      destruct (snd (create_raw _ _ _ _));
        [destruct (Ventoy.create_ventoy_sim _)|]; discriminate.
    + apply Nat.eqb_neq in Hs.
      split; [intros _; right; exact Hs | reflexivity].
  - apply Nat.eqb_neq in Hb.
    split; [intros _; left; exact Hb | reflexivity].
Qed.

(** C3 as stated fails: no ceiling stops the build before planning; a
    kernel of any number of sectors goes on to [create_raw]. *)
Lemma kernel_ceiling_absent :
  ~ (exists ceiling : Z,
       forall ts clock st (boot stage2 kernel : list byte),
         ceiling < sectors_of kernel ->
         Build.aborted_before_plan
           (Build.full_build ts clock st boot stage2 kernel) = true).
Proof.
  intros [c H].
  set (m := Z.to_nat (Z.max c 0 + 1)).
  assert (Hk : sectors_of (zeros (512 * m)) = Z.of_nat m).
  { unfold sectors_of, ceil_div. rewrite length_zeros, Nat2Z.inj_mul.
    replace (Z.of_nat 512 * Z.of_nat m + 512 - 1)
      with (Z.of_nat m * 512 + 511) by lia.
    rewrite Z.div_add_l by lia. change (511 / 512) with 0. lia. }
  specialize (H Iso.no_tools 0 (Build.mk_fs None None None None)
                (zeros 512) (repeat Byte.x90 (64 * 512)) (zeros (512 * m))).
  rewrite Hk in H. specialize (H ltac:(unfold m; lia)).
  rewrite plan_reached in H
    by (rewrite ?length_zeros, ?repeat_length; reflexivity).
  discriminate H.
Qed.

(** C4 (amended). Without xorriso or genisoimage/mkisofs, [create_iso]
    falls back to [_iso_as_disk]: dist/portix.iso is a byte-for-byte copy
    of the raw image, with no ISO 9660 or El Torito structure of its own;
    in a finished build it equals build/portix.img. *)
Theorem iso_fallback_is_raw_copy :
  (forall clock disk iso, Iso.create_iso Iso.no_tools clock disk iso = Some disk) /\
  (forall clock st (boot stage2 kernel : list byte),
     match Build.full_build Iso.no_tools clock st boot stage2 kernel with
     | Build.Built st' => Build.iso_img st' = Build.disk_img st'
     | Build.Aborted _ _ => True
     end).
Proof.
  split; [reflexivity|].
  intros clock st boot stage2 kernel. unfold Build.full_build.
  destruct (negb _); [exact I|]. destruct (negb _); [exact I|].
  destruct (snd (create_raw _ _ _ _)) as [img|]; [|exact I].
  destruct (Ventoy.create_ventoy_sim img); [reflexivity | exact I].
Qed.

(** C4 as stated fails: the fallback ISO of the raw image built from a
    512-byte boot sector, a 64-sector stage2 and a 1500-byte kernel has
    no boot-record descriptor at block 17 (its bytes there are the zero
    margin), so there is no validation entry whose words sum to 0. *)
Lemma iso_fallback_no_validation_entry :
  match snd (create_raw (sectors_of Sample.kernel_bin)
               Sample.boot_bin
               Sample.stage2_bin Sample.kernel_bin) return Prop with
  | Some img =>
      match Iso.create_iso Iso.no_tools 0 img None return Prop with
      | Some v => Iso.validation_entry_ok v = false
      | None => False
      end
  | None => False
  end.
Proof.
  set (b := Sample.boot_bin).
  set (s := Sample.stage2_bin).
  set (k := Sample.kernel_bin).
  assert (Hb : length b = 512%nat) by reflexivity.
  assert (Hs : length s = (64 * 512)%nat) by apply repeat_length.
  assert (Hk : length k = 1500%nat) by apply repeat_length.
  rewrite (create_raw_spec b s k Hb Hs).
  destruct (Mbr.partition_entry _) as [p|] eqn:E;
    [|vm_compute in E; discriminate E].
  destruct (finished_raw_regions b s k Hb Hs p E) as (_ & _ & _ & _ & _ & Z0).
  pose proof (L_bound b s k Hb Hs) as HL.
  set (img := slice_assign _ 446 (446 + 16) p) in *.
  change (Iso.create_iso Iso.no_tools 0 img None) with (Some img).
  clearbody img.
  assert (Z1 : nth (17 * 2048) img Byte.x00 = Byte.x00).
  { apply nth_error_nth. apply Z0. lia. }
  assert (Z2 : nth (17 * 2048 + 1 + 0) img Byte.x00 = Byte.x00).
  { apply nth_error_nth. apply Z0. lia. }
  unfold Iso.validation_entry_ok, Iso.boot_record_at.
  rewrite Z1. change (seq 0 5) with [0; 1; 2; 3; 4]%nat.
  cbn [forallb]. rewrite Z2. reflexivity.
Qed.

End RawClaims.

(* ------------------------------------------------------------------ *)
(** ** The nested container *)

Module VentoyFacts.
Import PyFacts Ventoy.

Lemma vsim_off : Z.to_nat (VENTOY_SIM_OFFSET_SECTORS * 512) = (2048 * 512)%nat.
Proof. unfold VENTOY_SIM_OFFSET_SECTORS. rewrite Z2Nat.inj_mul by lia. reflexivity. Qed.

Lemma vsim_size : Z.to_nat (VENTOY_SIM_DISK_MB * 1024 * 1024) = (64 * 1024 * 1024)%nat.
Proof. unfold VENTOY_SIM_DISK_MB. rewrite !Z2Nat.inj_mul by lia. reflexivity. Qed.

Lemma build_mbr_bytes full pe :
  (length full <= 446)%nat -> length pe = 16%nat ->
  length (build_mbr full pe) = 512%nat /\
  forall i, (i < 446)%nat ->
    nth_error (build_mbr full pe) i = nth_error (build_mbr full part_entry0) i.
Proof.
  intros Hf Hp.
  assert (G : forall q, length q = 16%nat ->
    let m1 := slice_assign (zeros 512) 0 (length full) full in
    let m2 := slice_assign m1 446 (446 + 16) q in
    let m3 := set_item m2 510 Byte.x55 in
    build_mbr full q = set_item m3 511 Byte.xaa /\
    length m1 = 512%nat /\ length m2 = 512%nat /\ length m3 = 512%nat).
  { intros q Hq m1 m2 m3.
    assert (L1 : length m1 = 512%nat)
      by (apply length_slice_assign; rewrite ?length_zeros; lia).
    assert (L2 : length m2 = 512%nat)
      by (unfold m2; rewrite length_slice_assign; lia).
    assert (L3 : length m3 = 512%nat)
      by (unfold m3, set_item; rewrite length_slice_assign; [exact L2 | lia | lia | reflexivity]).
    unfold build_mbr. rewrite firstn_all2 by lia. auto. }
  destruct (G pe Hp) as (E & L1 & L2 & L3).
  destruct (G part_entry0 eq_refl) as (E' & _ & L2' & L3').
  rewrite E, E'. unfold set_item in *. split.
  - rewrite length_slice_assign; [exact L3 | lia | lia | reflexivity].
  - intros i Hi.
    rewrite !(nth_error_slice_lo _ 511) by lia.
    rewrite !(nth_error_slice_lo _ 510) by lia.
    rewrite !(nth_error_slice_lo _ 446) by lia.
    reflexivity.
Qed.

Lemma vsim_spec img :
  match create_ventoy_sim img return Prop with
  | Some c =>
      Z.of_nat (length img) / 512 < 2 ^ 32 /\
      (forall ch, chainload_asm VENTOY_SIM_OFFSET_SECTORS = Some ch ->
       forall i, (i < 446)%nat ->
         nth_error c i = nth_error (build_mbr (ch ++ main_code) part_entry0) i) /\
      (forall k, (k < length img)%nat ->
         nth_error c (2048 * 512 + k) = nth_error img k)
  | None => 2 ^ 32 <= Z.of_nat (length img) / 512
  end.
Proof.
  cbv beta zeta delta [create_ventoy_sim].
  set (S := Z.of_nat (length img) / 512).
  assert (S0 : 0 <= S) by (apply Z.div_pos; lia).
  destruct (pack_into_u32 part_entry0 8 VENTOY_SIM_OFFSET_SECTORS) as [pe1|] eqn:E1;
    [|vm_compute in E1; discriminate E1].
  assert (L1 : length pe1 = 16%nat)
    by (vm_compute in E1; injection E1 as <-; reflexivity).
  unfold pack_into_u32.
  destruct (Z_lt_le_dec S (2 ^ 32)) as [Hs|Hs].
  - rewrite pack_u32_ok by lia. rewrite L1.
    change ((12 + 4 <=? 16)%nat) with true.
    destruct (chainload_asm VENTOY_SIM_OFFSET_SECTORS) as [ch|] eqn:E3;
      [|vm_compute in E3; discriminate E3].
    assert (Lch : length ch = 78%nat)
      by (vm_compute in E3; injection E3 as <-; reflexivity).
    cbv beta iota.
    rewrite vsim_off, vsim_size.
    set (C1 := slice_assign (zeros (64 * 1024 * 1024)) (2048 * 512)
                 (2048 * 512 + length img) img).
    assert (LC1 : (2048 * 512 <= length C1)%nat).
    { unfold C1, slice_assign. rewrite !length_app, length_firstn, length_zeros.
      lia. }
    set (pe2 := slice_assign pe1 12 (12 + 4) _).
    assert (L2 : length pe2 = 16%nat)
      by (unfold pe2; rewrite length_slice_assign; [exact L1 | lia | lia | reflexivity]).
    destruct (build_mbr_bytes (ch ++ main_code) pe2) as [Lm Low];
      [rewrite length_app, Lch; apply Nat.leb_le; reflexivity | exact L2 |].
    split; [exact Hs|split].
    + intros ch' E' i Hi. injection E' as <-.
      rewrite nth_error_slice_in by lia.
      rewrite Nat.sub_0_r. apply Low. exact Hi.
    + intros k Hk. rewrite nth_error_slice_hi by lia.
      unfold C1. rewrite nth_error_slice_in by (rewrite ?length_zeros; lia).
      f_equal. lia.
  - rewrite pack_u32_none by lia. cbv beta iota. exact Hs.
Qed.

(** C1. For every raw image (fewer than 2^32 sectors, so that
    [struct.pack_into] accepts its sector count), the nested container's
    disk-address packet has LBA field [VENTOY_SIM_OFFSET_SECTORS] (2048)
    and sector count 1, and the container's bytes from
    [VENTOY_SIM_OFFSET_SECTORS * 512] on are the raw image byte for byte.
    Otherwise [create_ventoy_sim] raises before writing. *)
Theorem vsim_dap_payload img :
  match create_ventoy_sim img return Prop with
  | Some c =>
      dap_lba c = VENTOY_SIM_OFFSET_SECTORS /\ dap_count c = 1 /\
      firstn (length img)
        (skipn (Z.to_nat (VENTOY_SIM_OFFSET_SECTORS * 512)) c) = img
  | None => 2 ^ 32 <= Z.of_nat (length img) / 512
  end.
Proof.
  pose proof (vsim_spec img) as H.
  destruct (create_ventoy_sim img) as [c|]; [|exact H].
  destruct H as (_ & Low & Img).
  specialize (Low _ eq_refl).
  assert (U : forall i, (i < 446)%nat ->
            u8 c i = u8 (build_mbr (_ ++ main_code) part_entry0) i)
    by (intros i Hi; apply u8_eq, Low, Hi).
  split; [|split].
  - unfold dap_lba, le32, le16. rewrite !U by lia. vm_compute. reflexivity.
  - unfold dap_count, le16. rewrite !U by lia. vm_compute. reflexivity.
  - rewrite vsim_off. apply slice_read. exact Img.
Qed.

(** C2 (code behaviour). The container's sector 0 starts with the short
    jump EB 4E, whose target 2 + 0x4E = 0x50 lies two bytes into
    [main_code] (placed at 0x4E); [main_code] loads AH = 0x42 and issues
    INT 0x13 with the packet at 0x7C02, which asks for one sector into
    offset 0x7C00 of segment 0x7C00 (not segment 0); the far jump EA goes
    to 0000:7C00. *)
Theorem vsim_chainload_code img :
  match create_ventoy_sim img return Prop with
  | Some c =>
      (u8 c 0 = 235 /\ 2 + u8 c 1 = 80) /\
      firstn (length main_code) (skipn 78 c) = main_code /\
      (u8 c 94 = 180 /\ u8 c 95 = 66 /\ u8 c 96 = 205 /\ u8 c 97 = 19) /\
      (dap_count c = 1 /\ dap_offset c = 31744 /\ dap_segment c = 31744) /\
      (u8 c 103 = 234 /\ le16 c 104 = 31744 /\ le16 c 106 = 0)
  | None => 2 ^ 32 <= Z.of_nat (length img) / 512
  end.
Proof.
  pose proof (vsim_spec img) as H.
  destruct (create_ventoy_sim img) as [c|]; [|exact H].
  destruct H as (_ & Low & _).
  specialize (Low _ eq_refl).
  assert (U : forall i, (i < 446)%nat ->
            u8 c i = u8 (build_mbr (_ ++ main_code) part_entry0) i)
    by (intros i Hi; apply u8_eq, Low, Hi).
  split; [|split; [|split; [|split]]].
  - rewrite !U by lia. vm_compute. split; reflexivity.
  - apply slice_read. intros k Hk. rewrite Low by (cbn [length main_code] in Hk; lia).
    cbn [length main_code] in Hk.
    do 32 (destruct k as [|k]; [vm_compute; reflexivity|]). lia.
  - rewrite !U by lia. vm_compute. repeat split.
  - unfold dap_count, dap_offset, dap_segment, le16. rewrite !U by lia.
    vm_compute. repeat split.
  - unfold le16. rewrite !U by lia. vm_compute. repeat split.
Qed.

End VentoyFacts.

(* ------------------------------------------------------------------ *)
(** ** Re-running the build *)

Module BuildClaims.
Import PyFacts Raw RawFacts RawClaims Ventoy VentoyFacts.

Lemma sample_raw_some :
  exists img,
    snd (create_raw (sectors_of Sample.kernel_bin) Sample.boot_bin
           Sample.stage2_bin Sample.kernel_bin) = Some img /\
    Z.of_nat (length img) / 512 < 2 ^ 32.
Proof.
  assert (Hb : length Sample.boot_bin = 512%nat) by reflexivity.
  assert (Hs : length Sample.stage2_bin = (64 * 512)%nat) by apply repeat_length.
  rewrite (create_raw_spec _ _ _ Hb Hs).
  destruct (Mbr.partition_entry _) as [p|] eqn:E;
    [|vm_compute in E; discriminate E].
  eexists. split; [reflexivity|].
  pose proof (MbrFacts.partition_entry_length _ _ E) as Lp.
  pose proof (L_bound _ _ Sample.kernel_bin Hb Hs) as HL.
  rewrite length_slice_assign by (rewrite ?(length_assemble_raw _ _ Sample.kernel_bin Hb Hs); lia).
  rewrite (length_assemble_raw _ _ Sample.kernel_bin Hb Hs).
  rewrite Z2Nat.id by apply layout_nbytes_nonneg.
  vm_compute. reflexivity.
Qed.

(** C9 (amended). With neither xorriso nor genisoimage/mkisofs found,
    re-running the build on the same boot.bin, stage2.bin and kernel.bin
    gives the same raw image, optical image and nested container, at any
    time and whatever the build directory held before.  With an external
    tool, the raw image and the nested container are still the same; the
    optical image is the tool's output. *)
Theorem rebuild_identical c1 c2 st1 st2 (boot stage2 kernel : list byte) :
  Build.outputs (Build.full_build Iso.no_tools c1 st1 boot stage2 kernel) =
  Build.outputs (Build.full_build Iso.no_tools c2 st2 boot stage2 kernel) /\
  (forall ts,
     option_map (fun o => (fst (fst o), snd o))
       (Build.outputs (Build.full_build ts c1 st1 boot stage2 kernel)) =
     option_map (fun o => (fst (fst o), snd o))
       (Build.outputs (Build.full_build ts c2 st2 boot stage2 kernel))).
Proof.
  unfold Build.outputs, Build.full_build.
  destruct (negb _); [split; [reflexivity | intros; reflexivity]|].
  destruct (negb _); [split; [reflexivity | intros; reflexivity]|].
  destruct (snd (create_raw _ _ _ _)) as [img|];
    [|split; [reflexivity | intros; reflexivity]].
  destruct (Ventoy.create_ventoy_sim img);
    split; [reflexivity | intros; reflexivity | reflexivity | intros; reflexivity].
Qed.

(** C9 as stated fails: the optical image is the external tool's output,
    and a tool that stamps the time of its run (as ISO 9660 volume
    descriptors do) gives two runs on identical artifacts different
    optical images. *)
Lemma rebuild_iso_clock_dependent :
  ~ (forall ts c1 c2 st1 st2 (boot stage2 kernel : list byte),
       Build.outputs (Build.full_build ts c1 st1 boot stage2 kernel) =
       Build.outputs (Build.full_build ts c2 st2 boot stage2 kernel)).
Proof.
  intros H.
  set (stamp := fun (t : Z) (_ : list byte) => (true, Some [bof t])).
  set (st0 := Build.mk_fs None None None None).
  specialize (H (Iso.mk_tools (Some stamp) None) 0 1 st0 st0
                Sample.boot_bin Sample.stage2_bin Sample.kernel_bin).
  destruct sample_raw_some as (img & Ei & Li).
  pose proof (vsim_spec img) as V.
  destruct (create_ventoy_sim img) as [c|] eqn:Ev; [|lia].
  assert (Hb : length Sample.boot_bin = 512%nat) by reflexivity.
  assert (Hs : length Sample.stage2_bin = (64 * 512)%nat) by apply repeat_length.
  assert (F : forall t,
    Build.full_build (Iso.mk_tools (Some stamp) None) t st0
      Sample.boot_bin Sample.stage2_bin Sample.kernel_bin =
    Build.Built (Build.mk_fs (Some img) (Some img) (Some [bof t]) (Some c))).
  { intros t. unfold Build.full_build.
    rewrite Hb, Hs, !Nat.eqb_refl. cbn [negb].
    rewrite Ei, Ev. reflexivity. }
  rewrite !F in H. unfold Build.outputs in H.
  injection H as H. discriminate H.
Qed.

End BuildClaims.

(* ------------------------------------------------------------------ *)
(** ** Command line *)

Module CliFacts.
Import (notations) Stdlib.Strings.String Stdlib.Strings.Ascii.
Local Open Scope string_scope.
Import Cli.

(** X1. [find_tool] returns the path of the first name the host finds,
    after names it does not find, and [None] exactly when it finds none
    of them. *)
Theorem find_tool_first (w : which) (names : list String.string) :
  (forall p, find_tool w names = Some p <->
     exists pre n post, names = (pre ++ n :: post)%list /\
       Forall (fun m => w m = None) pre /\ w n = Some p) /\
  (find_tool w names = None <-> Forall (fun m => w m = None) names).
Proof.
  induction names as [|n ns [IH1 IH2]]; cbn [find_tool].
  - split; [|split; auto].
    intros p. split; [discriminate|].
    intros (pre & n & post & E & _). destruct pre; discriminate.
  - destruct (w n) as [q|] eqn:Wn.
    + split.
      * intros p. split.
        -- intros H. injection H as <-. exists [], n, ns. auto.
        -- intros (pre & m & post & E & F & Wm).
           destruct pre as [|a pre]; injection E as E1 E2.
           ++ subst m. congruence.
           ++ subst a. inversion F. congruence.
      * split; [discriminate|]. intros F. inversion F. congruence.
    + split.
      * intros p. rewrite IH1. split.
        -- intros (pre & m & post & E & F & Wm).
           exists (n :: pre), m, post. subst ns.
           split; [reflexivity | split; [constructor; assumption | exact Wm]].
        -- intros (pre & m & post & E & F & Wm).
           destruct pre as [|a pre]; injection E as E1 E2.
           ++ subst m. congruence.
           ++ subst a ns. inversion F. exists pre, m, post. auto.
      * rewrite IH2. split; [intros F; constructor; auto | intros F; inversion F; auto].
Qed.

Lemma find_tool_one w t : find_tool w [t] = w t.
Proof. cbn. destruct (w t); reflexivity. Qed.

(** X2. [check_tools] lets the build go on exactly when nasm, cargo and
    qemu-system-x86_64 are all found and one of the objcopy names is; the
    objcopy it keeps is the first one found. *)
Theorem check_tools_spec (w : which) p :
  check_tools w = Some p <->
  Forall (fun t => w t <> None) required_tools /\
  find_tool w objcopy_names = Some p.
Proof.
  unfold check_tools.
  assert (A : forall ts, all_found w ts = true <-> Forall (fun t => w t <> None) ts).
  { induction ts as [|t ts IH]; cbn [all_found].
    - split; auto.
    - rewrite find_tool_one. destruct (w t) eqn:Wt.
      + rewrite IH. split; [intros F; constructor; congruence | intros F; inversion F; auto].
      + split; [discriminate | intros F; inversion F; congruence]. }
  destruct (all_found w required_tools) eqn:E.
  - apply A in E. tauto.
  - split; [discriminate|]. intros [F _]. apply A in F. congruence.
Qed.

Lemma after_eq_app (p v : String.string) :
  after_eq p = None -> after_eq (p ++ "=" ++ v) = Some v.
Proof.
  induction p as [|c p IH]; cbn.
  - reflexivity.
  - destruct (Ascii.eqb c "=") eqn:E; [discriminate|]. exact IH.
Qed.

Lemma prefix_app (p v : String.string) :
  String.prefix (p ++ "=") (p ++ "=" ++ v) = true.
Proof.
  induction p as [|c p IH]; cbn.
  - destruct v; reflexivity.
  - destruct (Ascii.ascii_dec c c) as [_|N]; [exact IH | congruence].
Qed.

Lemma prefix_cons a s1 b s2 :
  String.prefix (String.String a s1) (String.String b s2) =
  if Ascii.ascii_dec a b then String.prefix s1 s2 else false.
Proof. reflexivity. Qed.

Lemma after_eq_prefix (p a : String.string) :
  String.prefix (p ++ "=") a = true -> exists v, after_eq a = Some v.
Proof.
  revert a. induction p as [|c p IH]; intros a H; destruct a as [|d a];
    try discriminate H.
  - change ("" ++ "=") with (String.String "="%char "") in H.
    rewrite prefix_cons in H.
    destruct (Ascii.ascii_dec "="%char d) as [<-|N]; [|discriminate H].
    exists a. reflexivity.
  - change ((String.String c p) ++ "=") with (String.String c (p ++ "=")) in H.
    rewrite prefix_cons in H.
    destruct (Ascii.ascii_dec c d) as [<-|N]; [|discriminate H].
    cbn [after_eq]. destruct (Ascii.eqb c "="%char); eauto.
Qed.

(** X3. An argument [prefix=v] is read back as [v] by [arg_val prefix]
    when no earlier argument starts with [prefix=] and [prefix] itself
    holds no ["="] (the code splits at the first ["="] of the argument). *)
Theorem arg_val_roundtrip (argv1 argv2 : list String.string) (prefix v : String.string) :
  after_eq prefix = None ->
  Forall (fun a => String.prefix (prefix ++ "=") a = false) argv1 ->
  arg_val (argv1 ++ (prefix ++ "=" ++ v) :: argv2) prefix = Some v.
Proof.
  intros Hp F. induction F as [|a argv1 Ha F IH]; cbn [app arg_val].
  - rewrite prefix_app. apply after_eq_app. exact Hp.
  - rewrite Ha. exact IH.
Qed.

Lemma arg_val_roundtrip_witness :
  after_eq "--mode" = None /\
  Forall (fun a => String.prefix ("--mode" ++ "=") a = false) ["build.py"; "--no-run"] /\
  arg_val (["build.py"; "--no-run"] ++ ("--mode" ++ "=" ++ "iso=1") :: ["--no-vm"]) "--mode"
    = Some "iso=1".
Proof.
  split; [reflexivity|]. split; [repeat constructor|].
  apply arg_val_roundtrip; [reflexivity | repeat constructor].
Defined.

(** X4. [arg_val] returns [None] exactly when no argument starts with
    [prefix ++ "="]: such an argument always holds an ["="], so the
    [split] never fails. *)
Theorem arg_val_none (argv : list String.string) (prefix : String.string) :
  arg_val argv prefix = None <->
  Forall (fun a => String.prefix (prefix ++ "=") a = false) argv.
Proof.
  induction argv as [|a argv IH]; cbn [arg_val].
  - split; auto.
  - destruct (String.prefix (prefix ++ "=") a) eqn:P.
    + destruct (after_eq_prefix prefix a P) as [v E]. rewrite E.
      split; [discriminate | intros F; inversion F; congruence].
    + rewrite IH. split; [intros F; constructor; auto | intros F; inversion F; auto].
Qed.

End CliFacts.

(* ------------------------------------------------------------------ *)
(** ** Partition-table injection: decoding, failure, idempotence *)

Module MbrExtras.
Import Py PyFacts Mbr MbrFacts Injection.

Lemma land_low x n : 0 <= n -> Z.land x (Z.ones n) = x mod 2 ^ n.
Proof. intros Hn. apply Z.land_ones. exact Hn. Qed.

Lemma land_192_byte b : 0 <= b < 256 -> Z.land b 192 = 64 * (b / 64).
Proof.
  intros Hb.
  assert (A : forallb (fun n => Z.land (Z.of_nat n) 192 =? 64 * (Z.of_nat n / 64))
                      (seq 0 256) = true) by reflexivity.
  rewrite forallb_forall in A.
  specialize (A (Z.to_nat b)). rewrite Z2Nat.id in A by lia.
  apply Z.eqb_eq, A, in_seq. lia.
Qed.

Lemma land_192 x : 0 <= x -> Z.land x 192 = 64 * ((x / 64) mod 4).
Proof.
  intros Hx.
  replace (Z.land x 192) with (Z.land (Z.land x 255) 192)
    by (rewrite <- Z.land_assoc; reflexivity).
  change 255 with (Z.ones 8). rewrite land_low by lia.
  rewrite land_192_byte by (apply Z.mod_pos_bound; lia).
  f_equal. change (2 ^ 8) with 256.
  pose proof (Z.div_mod x 256 ltac:(lia)) as D.
  pose proof (Z.mod_pos_bound x 256 ltac:(lia)) as R.
  set (r := x mod 256) in *. set (q := x / 256) in *.
  assert (Q : x / 64 = q * 4 + r / 64).
  { rewrite D. replace (256 * q + r) with (q * 4 * 64 + r) by lia.
    rewrite Z.div_add_l by lia. reflexivity. }
  rewrite Q, Z.add_comm, Z.mod_add by lia.
  symmetry. apply Z.mod_small. split; [apply Z.div_pos | apply Z.div_lt_upper_bound]; lia.
Qed.

Lemma lor_byte b : 0 <= b < 256 -> Z.lor (b mod 64) (64 * (b / 64)) = b.
Proof.
  intros Hb.
  assert (A : forallb (fun n => Z.lor (Z.of_nat n mod 64) (64 * (Z.of_nat n / 64))
                                =? Z.of_nat n) (seq 0 256) = true) by reflexivity.
  rewrite forallb_forall in A.
  specialize (A (Z.to_nat b)). rewrite Z2Nat.id in A by lia.
  apply Z.eqb_eq, A, in_seq. lia.
Qed.

(** The CHS bytes 5..7 that [partition_entry] stores. *)
Lemma partition_entry_chs t p :
  partition_entry t = Some p ->
  let end_lba := t - 1 in
  let end_sect := end_lba mod 63 + 1 in
  let end_head := (end_lba / 63) mod 255 in
  let end_cyl := end_lba / (63 * 255) in
  nth_error p 5 = Some (bof (Z.land end_head 255)) /\
  nth_error p 6 = Some (bof (Z.lor (Z.land end_sect 63)
                                   (Z.land (Z.shiftr end_cyl 2) 192))) /\
  nth_error p 7 = Some (bof (Z.land end_cyl 255)).
Proof.
  unfold partition_entry, pack_into_u32. intros H.
  rewrite (pack_u32_ok 1) in H by lia.
  change (8 + 4 <=? length _)%nat with true in H. cbv beta iota in H.
  destruct (pack_u32 (t - 1)) as [w|]; [|discriminate H].
  destruct (12 + 4 <=? _)%nat; [|discriminate H].
  injection H as <-. cbv zeta. split; [|split]; reflexivity.
Qed.

(** The legacy CHS reading of what the code stores for [end_lba >= 0]. *)
Lemma chs_roundtrip e :
  0 <= e ->
  let end_sect := e mod 63 + 1 in
  let end_head := (e / 63) mod 255 in
  let end_cyl := e / (63 * 255) in
  let head := bval (bof (Z.land end_head 255)) in
  let sb := bval (bof (Z.lor (Z.land end_sect 63)
                             (Z.land (Z.shiftr end_cyl 2) 192))) in
  let cyl := bval (bof (Z.land end_cyl 255))
             + Z.shiftl (Z.shiftr (Z.land sb 192) 6) 8 in
  (cyl * 255 + head) * 63 + Z.land sb 63 - 1 = e mod (1024 * 255 * 63).
Proof.
  intros He end_sect end_head end_cyl head sb cyl.
  assert (F : e mod (1024 * 255 * 63) =
              ((end_cyl mod 1024) * 255 + end_head) * 63 + end_sect - 1).
  { unfold end_sect, end_head, end_cyl.
    pose proof (Z.div_mod e 63 ltac:(lia)) as D1.
    pose proof (Z.div_mod (e / 63) 255 ltac:(lia)) as D2.
    pose proof (Z.div_mod (e / 63 / 255) 1024 ltac:(lia)) as D3.
    rewrite <- Z.div_div by lia.
    pose proof (Z.mod_pos_bound e 63 ltac:(lia)).
    pose proof (Z.mod_pos_bound (e / 63) 255 ltac:(lia)).
    pose proof (Z.mod_pos_bound (e / 63 / 255) 1024 ltac:(lia)).
    symmetry. apply (Z.mod_unique_pos _ _ (e / 63 / 255 / 1024)); lia. }
  assert (Hc : 0 <= end_cyl) by (apply Z.div_pos; lia).
  assert (Hh : 0 <= end_head < 255) by (apply Z.mod_pos_bound; lia).
  assert (Hs : 1 <= end_sect <= 63)
    by (unfold end_sect; pose proof (Z.mod_pos_bound e 63); lia).
  clearbody end_sect end_head end_cyl. rewrite F.
  assert (E63 : forall x, Z.land x 63 = x mod 64)
    by (intros x; change 63 with (Z.ones 6); apply land_low; lia).
  assert (E255 : forall x, Z.land x 255 = x mod 256)
    by (intros x; change 255 with (Z.ones 8); apply land_low; lia).
  pose (k := (end_cyl / 256) mod 4).
  assert (Hk : 0 <= k < 4) by (apply Z.mod_pos_bound; lia).
  assert (K : Z.land (Z.shiftr end_cyl 2) 192 = 64 * k).
  { rewrite Z.shiftr_div_pow2 by lia. rewrite land_192 by (apply Z.div_pos; lia).
    unfold k. rewrite Z.div_div by lia. reflexivity. }
  assert (CK : end_cyl mod 1024 = end_cyl mod 256 + 256 * k).
  { unfold k.
    pose proof (Z.div_mod end_cyl 256 ltac:(lia)) as D1.
    pose proof (Z.div_mod (end_cyl / 256) 4 ltac:(lia)) as D2.
    pose proof (Z.mod_pos_bound end_cyl 256 ltac:(lia)).
    pose proof (Z.mod_pos_bound (end_cyl / 256) 4 ltac:(lia)).
    symmetry. apply (Z.mod_unique_pos _ _ (end_cyl / 256 / 4)); lia. }
  clearbody k.
  assert (M : (end_sect + 64 * k) mod 64 = end_sect)
    by (symmetry; apply (Z.mod_unique_pos _ _ k); lia).
  assert (Dv : (end_sect + 64 * k) / 64 = k)
    by (symmetry; apply (Z.div_unique_pos _ _ _ end_sect); lia).
  assert (SB : sb = end_sect + 64 * k).
  { unfold sb. rewrite K, E63, bval_bof.
    rewrite (Z.mod_small end_sect 64) by lia.
    pose proof (lor_byte (end_sect + 64 * k) ltac:(lia)) as L.
    rewrite M, Dv in L. rewrite L. apply Z.mod_small. lia. }
  assert (HD : head = end_head).
  { unfold head. rewrite E255, bval_bof, Z.mod_mod by lia. apply Z.mod_small. lia. }
  assert (CY : cyl = end_cyl mod 1024).
  { unfold cyl. rewrite SB, E255, bval_bof, Z.mod_mod by lia.
    rewrite land_192 by lia.
    rewrite Z.shiftr_div_pow2, Z.shiftl_mul_pow2 by lia.
    rewrite Dv, (Z.mod_small k 4) by lia.
    change (2 ^ 6) with 64. change (2 ^ 8) with 256.
    rewrite (Z.mul_comm 64 k), Z.div_mul by lia. lia. }
  rewrite CY, HD, SB, E63, M. lia.
Qed.

(** A file shorter than one sector makes the injection raise. *)
Lemma inject_short (data : list byte) :
  (length data < 512)%nat -> snd (inject_partition_table data) = None.
Proof.
  intros H.
  assert (P0 : partition_entry (Z.of_nat (length data) / 512) = None)
    by (rewrite Z.div_small by lia; apply partition_entry_none; lia).
  unfold inject_partition_table. cbv zeta. rewrite P0.
  destruct (nth_error data 510); [|reflexivity].
  destruct (negb _); [reflexivity|].
  destruct (nth_error data 511); reflexivity.
Qed.

Lemma partition_entry_some_iff t :
  1 <= t -> (partition_entry t <> None <-> t <= 2 ^ 32).
Proof.
  intros Ht. split.
  - intros H. destruct (Z.le_gt_cases t (2 ^ 32)) as [|G]; [assumption|].
    exfalso. apply H. apply partition_entry_none. lia.
  - intros H. destruct (partition_entry_some t) as (p & E & _); [lia|].
    rewrite E. discriminate.
Qed.

Lemma slice_twice (data p : list byte) i :
  length p = 16%nat -> (i + 16 <= length data)%nat ->
  slice_assign (slice_assign data i (i + 16) p) i (i + 16) p =
  slice_assign data i (i + 16) p.
Proof.
  intros Lp Ld.
  assert (L1 : length (slice_assign data i (i + 16) p) = length data)
    by (apply length_slice_assign; lia).
  apply nth_error_ext. intros k.
  destruct (Nat.lt_ge_cases k i) as [K|K].
  - rewrite !nth_error_slice_lo by lia. reflexivity.
  - destruct (Nat.lt_ge_cases k (i + 16)) as [K'|K'].
    + rewrite !nth_error_slice_in by lia. reflexivity.
    + rewrite nth_error_slice_hi by lia. reflexivity.
Qed.

Lemma signature_bad_slice (data p : list byte) :
  length p = 16%nat -> (512 <= length data)%nat ->
  signature_bad (slice_assign data 446 (446 + 16) p) = signature_bad data.
Proof.
  intros Lp Ld. unfold signature_bad.
  rewrite !(nth_of_nth_error (slice_assign data 446 (446 + 16) p) data 510 510)
    by (apply nth_error_slice_hi; lia).
  rewrite !(nth_of_nth_error (slice_assign data 446 (446 + 16) p) data 511 511)
    by (apply nth_error_slice_hi; lia).
  reflexivity.
Qed.

(** X5. The ending CHS address of the injected entry, decoded with 63
    sectors per track and 255 heads, is the image's last sector
    [T - 1] modulo 1024 * 255 * 63: exact below 1024 cylinders, wrapped
    around past them. *)
Theorem inject_end_chs (data : list byte) :
  (512 <= length data)%nat ->
  let T := Z.of_nat (length data) / 512 in
  match snd (inject_partition_table data) with
  | Some d => entry_end_chs_lba d = (T - 1) mod (1024 * 255 * 63)
  | None => 2 ^ 32 < T
  end.
Proof.
  intros H T. rewrite inject_spec by lia. fold T. cbn [snd].
  assert (T1 : 1 <= T) by (unfold T; apply Z.div_le_lower_bound; lia).
  destruct (partition_entry T) as [p|] eqn:E.
  - pose proof (partition_entry_length _ _ E) as Lp.
    destruct (partition_entry_chs _ _ E) as (B5 & B6 & B7).
    unfold entry_end_chs_lba. rewrite !u8_slice_in by lia.
    replace (446 + 5 - 446)%nat with 5%nat by lia.
    replace (446 + 6 - 446)%nat with 6%nat by lia.
    replace (446 + 7 - 446)%nat with 7%nat by lia.
    unfold u8. rewrite (nth_error_nth _ _ _ B5), (nth_error_nth _ _ _ B6),
      (nth_error_nth _ _ _ B7).
    apply (chs_roundtrip (T - 1)). lia.
  - destruct (Z.le_gt_cases T (2 ^ 32)) as [G|G]; [|exact G].
    exfalso. apply (proj2 (partition_entry_some_iff T T1) G). exact E.
Qed.

Lemma inject_end_chs_witness :
  (512 <= length (zeros 1024))%nat /\
  match snd (inject_partition_table (zeros 1024)) with
  | Some d => entry_end_chs_lba d =
              (Z.of_nat (length (zeros 1024)) / 512 - 1) mod (1024 * 255 * 63)
  | None => 2 ^ 32 < Z.of_nat (length (zeros 1024)) / 512
  end.
Proof.
  assert (H : (512 <= length (zeros 1024))%nat) by (vm_compute; lia).
  split; [exact H|]. exact (inject_end_chs (zeros 1024) H).
Defined.

(** X6. The injection writes the file exactly when it holds at least one
    whole sector and at most 2^32 of them; otherwise it raises
    ([IndexError] below 511 bytes, [struct.error] on the count). *)
Theorem inject_writes_iff (data : list byte) :
  snd (inject_partition_table data) <> None <->
  (512 <= length data)%nat /\ Z.of_nat (length data) / 512 <= 2 ^ 32.
Proof.
  destruct (Nat.lt_ge_cases (length data) 512) as [H|H].
  - rewrite inject_short by exact H. split; [congruence | lia].
  - rewrite inject_spec by exact H. cbn [snd].
    assert (T1 : 1 <= Z.of_nat (length data) / 512)
      by (apply Z.div_le_lower_bound; lia).
    rewrite <- (partition_entry_some_iff _ T1).
    destruct (partition_entry _); split; intros G; try split; try congruence; tauto.
Qed.

(** X7. Injecting twice is injecting once: run on the file it produced,
    the injection logs the same events and writes the same bytes. *)
Theorem inject_idempotent (data : list byte) :
  inject_partition_table (file_after data) = inject_partition_table data.
Proof.
  unfold file_after.
  destruct (Nat.lt_ge_cases (length data) 512) as [H|H].
  - rewrite inject_short by exact H. reflexivity.
  - rewrite (inject_spec data H). cbn [snd].
    destruct (partition_entry _) as [p|] eqn:E;
      [|rewrite (inject_spec data H), E; reflexivity].
    pose proof (partition_entry_length _ _ E) as Lp.
    assert (L1 : length (slice_assign data 446 (446 + 16) p) = length data)
      by (apply length_slice_assign; lia).
    rewrite inject_spec by lia. rewrite L1, E, slice_twice by lia.
    rewrite signature_bad_slice by lia. reflexivity.
Qed.

End MbrExtras.

(* ------------------------------------------------------------------ *)
(** ** Size and padding of the raw image *)

Module RawExtras.
Import Py PyFacts Raw RawFacts RawClaims.

(** X8. With boot.bin of 512 bytes and stage2.bin of 64*512 bytes, the
    finished raw image is [layout_nbytes] long: a whole number of MiB, at
    least 8 MiB, room for the 1 + 64 + ks + 64 planned sectors, and every
    byte after the kernel (the rest of its last sector, the margin and
    the padding) is zero. *)
Theorem raw_image_shape (boot stage2 kernel : list byte) :
  length boot = 512%nat -> length stage2 = (64 * 512)%nat ->
  let ks := sectors_of kernel in
  match snd (create_raw ks boot stage2 kernel) return Prop with
  | Some img =>
      Z.of_nat (length img) = layout_nbytes ks /\
      Z.of_nat (length img) mod (1024 * 1024) = 0 /\
      8 * 1024 * 1024 <= Z.of_nat (length img) /\
      (1 + 64 + ks + 64) * 512 <= Z.of_nat (length img) /\
      (forall i, (65 * 512 + length kernel <= i < length img)%nat ->
         nth_error img i = Some Byte.x00)
  | None => 2 ^ 32 < layout_nbytes ks / 512
  end.
Proof.
  intros Hb Hs. cbv zeta.
  destruct (snd (create_raw (sectors_of kernel) boot stage2 kernel)) eqn:H.
  - rewrite (create_raw_spec boot stage2 kernel Hb Hs) in H.
    destruct (Mbr.partition_entry _) as [p|] eqn:E; [|discriminate].
    injection H as <-.
    pose proof (MbrFacts.partition_entry_length _ _ E) as Lp.
    pose proof (L_bound boot stage2 kernel Hb Hs) as HL.
    pose proof (length_assemble_raw boot stage2 kernel Hb Hs) as LA.
    destruct (finished_raw_regions boot stage2 kernel Hb Hs p E)
      as (_ & _ & _ & _ & _ & Z0).
    rewrite length_slice_assign by lia. rewrite LA.
    rewrite Z2Nat.id by apply layout_nbytes_nonneg.
    set (ks := sectors_of kernel) in *.
    assert (Mb : layout_nbytes ks = layout_mb ks * 1024 * 1024) by reflexivity.
    assert (M8 : 8 <= layout_mb ks)
      by (unfold layout_mb, raw_layout, DISK_MIN_MB; cbn [fst snd]; lia).
    assert (Tot : (1 + 64 + ks + 64) * 512 <= layout_nbytes ks).
    { unfold layout_nbytes, raw_layout, KERNEL_LBA_START, STAGE2_SECTORS,
        KERNEL_MARGIN, DISK_MIN_MB. cbn [snd].
      pose proof (ceil_div_spec ((1 + 64 + ks + 64) * 512) (1024 * 1024)
                    ltac:(lia)).
      pose proof (Z.le_max_l (ceil_div ((1 + 64 + ks + 64) * 512)
                                       (1024 * 1024)) 8).
      nia. }
    split; [reflexivity|]. split; [|split; [|split]].
    + rewrite Mb, <- Z.mul_assoc. apply Z.mod_mul. lia.
    + lia.
    + exact Tot.
    + intros i Hi. apply Z0. exact Hi.
  - apply (create_raw_cases boot stage2 kernel Hb Hs H).
Qed.

Lemma raw_image_shape_witness :
  length Sample.boot_bin = 512%nat /\
  length Sample.stage2_bin = (64 * 512)%nat /\
  match snd (create_raw (sectors_of Sample.kernel_bin)
               Sample.boot_bin Sample.stage2_bin Sample.kernel_bin) return Prop with
  | Some img =>
      Z.of_nat (length img) = layout_nbytes (sectors_of Sample.kernel_bin) /\
      Z.of_nat (length img) mod (1024 * 1024) = 0 /\
      8 * 1024 * 1024 <= Z.of_nat (length img) /\
      (1 + 64 + sectors_of Sample.kernel_bin + 64) * 512
        <= Z.of_nat (length img) /\
      (forall i, (65 * 512 + length Sample.kernel_bin <= i < length img)%nat ->
         nth_error img i = Some Byte.x00)
  | None => 2 ^ 32 < layout_nbytes (sectors_of Sample.kernel_bin) / 512
  end.
Proof.
  assert (Hb : length Sample.boot_bin = 512%nat) by reflexivity.
  assert (Hs : length Sample.stage2_bin = (64 * 512)%nat) by apply repeat_length.
  split; [exact Hb|]. split; [exact Hs|].
  exact (raw_image_shape Sample.boot_bin Sample.stage2_bin Sample.kernel_bin Hb Hs).
Defined.

End RawExtras.

(* ------------------------------------------------------------------ *)
(** ** Layout and partition entry of the nested container *)

Module VentoyExtras.
Import Py PyFacts Ventoy VentoyFacts.

Lemma build_mbr_entry full pe :
  (length full <= 446)%nat -> length pe = 16%nat ->
  length (build_mbr full pe) = 512%nat /\
  (forall k, (446 <= k < 462)%nat ->
     nth_error (build_mbr full pe) k = nth_error pe (k - 446)) /\
  nth_error (build_mbr full pe) 510 = Some Byte.x55 /\
  nth_error (build_mbr full pe) 511 = Some Byte.xaa.
Proof.
  intros Hf Hp.
  set (m1 := slice_assign (zeros 512) 0 (length (firstn 446 full)) (firstn 446 full)).
  assert (L1 : length m1 = 512%nat)
    by (apply length_slice_assign; rewrite ?length_zeros, ?length_firstn; lia).
  set (m2 := slice_assign m1 446 (446 + 16) pe).
  assert (L2 : length m2 = 512%nat)
    by (unfold m2; rewrite length_slice_assign; lia).
  set (m3 := set_item m2 510 Byte.x55).
  assert (L3 : length m3 = 512%nat)
    by (unfold m3, set_item; rewrite length_slice_assign; [exact L2 | lia | lia | reflexivity]).
  assert (E : build_mbr full pe = set_item m3 511 Byte.xaa) by reflexivity.
  rewrite E. unfold set_item. split; [|split; [|split]].
  - rewrite length_slice_assign; [exact L3 | lia | lia | reflexivity].
  - intros k Hk. rewrite nth_error_slice_lo by lia.
    unfold m3, set_item. rewrite nth_error_slice_lo by lia.
    unfold m2. apply nth_error_slice_in; lia.
  - rewrite nth_error_slice_lo by lia.
    unfold m3, set_item. rewrite nth_error_slice_in by (cbn [length]; lia).
    reflexivity.
  - rewrite nth_error_slice_in by (cbn [length]; lia). reflexivity.
Qed.

(** [create_ventoy_sim] on an image of fewer than 2^32 sectors. *)
Lemma vsim_some img :
  Z.of_nat (length img) / 512 < 2 ^ 32 ->
  exists ch pe,
    (length (ch ++ main_code) <= 446)%nat /\ length pe = 16%nat /\
    u8 pe 0 = 128 /\ u8 pe 4 = 66 /\ le32 pe 8 = 2048 /\
    le32 pe 12 = Z.of_nat (length img) / 512 /\
    create_ventoy_sim img =
      Some (slice_assign
              (slice_assign (zeros (64 * 1024 * 1024)) (2048 * 512)
                            (2048 * 512 + length img) img)
              0 512 (build_mbr (ch ++ main_code) pe)).
Proof.
  intros Hs.
  cbv beta zeta delta [create_ventoy_sim].
  set (S := Z.of_nat (length img) / 512) in *.
  assert (S0 : 0 <= S) by (apply Z.div_pos; lia).
  destruct (pack_into_u32 part_entry0 8 VENTOY_SIM_OFFSET_SECTORS) as [pe1|] eqn:E1;
    [|vm_compute in E1; discriminate E1].
  assert (L1 : length pe1 = 16%nat)
    by (vm_compute in E1; injection E1 as <-; reflexivity).
  unfold pack_into_u32 at 1.
  rewrite pack_u32_ok by lia. rewrite L1.
  change ((12 + 4 <=? 16)%nat) with true.
  destruct (chainload_asm VENTOY_SIM_OFFSET_SECTORS) as [ch|] eqn:E3;
    [|vm_compute in E3; discriminate E3].
  assert (Lch : length ch = 78%nat)
    by (vm_compute in E3; injection E3 as <-; reflexivity).
  cbv beta iota.
  rewrite vsim_off, vsim_size.
  set (w := [bof S; bof (S / 2 ^ 8); bof (S / 2 ^ 16); bof (S / 2 ^ 24)]).
  exists ch, (slice_assign pe1 12 (12 + 4) w).
  assert (Lo : forall k, (k < 12)%nat ->
            u8 (slice_assign pe1 12 (12 + 4) w) k = u8 pe1 k)
    by (intros k Hk; apply u8_eq, nth_error_slice_lo; lia).
  split; [rewrite length_app, Lch; cbn [length main_code]; lia|].
  split; [rewrite length_slice_assign; [exact L1 | lia | lia | reflexivity]|].
  split; [rewrite Lo by lia; vm_compute in E1; injection E1 as <-; reflexivity|].
  split; [rewrite Lo by lia; vm_compute in E1; injection E1 as <-; reflexivity|].
  split.
  { unfold le32, le16. rewrite !Lo by lia.
    vm_compute in E1; injection E1 as <-; reflexivity. }
  split; [|reflexivity].
  rewrite Injection.le32_slice_in by (unfold w; cbn [length]; lia).
  apply le32_pack. lia.
Qed.

(** X9. The nested container is 64 MiB, or longer when the raw image does
    not fit after the 1 MiB offset (the slice assignment then extends it):
    its length is max(64 MiB, 2048 * 512 + the image's length).  The
    bytes between the MBR and the offset and those after the image are
    zero. *)
Theorem vsim_layout img :
  match create_ventoy_sim img return Prop with
  | Some c =>
      length c = Nat.max (64 * 1024 * 1024) (2048 * 512 + length img) /\
      (forall i, (512 <= i < 2048 * 512)%nat -> nth_error c i = Some Byte.x00) /\
      (forall i, (2048 * 512 + length img <= i < 64 * 1024 * 1024)%nat ->
         nth_error c i = Some Byte.x00)
  | None => 2 ^ 32 <= Z.of_nat (length img) / 512
  end.
Proof.
  destruct (Z_lt_le_dec (Z.of_nat (length img) / 512) (2 ^ 32)) as [Hs|Hs];
    [|pose proof (vsim_spec img) as H;
      destruct (create_ventoy_sim img); [destruct H; lia | exact H]].
  destruct (vsim_some img Hs) as (ch & pe & Lf & Lp & _ & _ & _ & _ & E').
  rewrite E'. cbv beta iota.
  set (Z0 := zeros (64 * 1024 * 1024)).
  assert (LZ : length Z0 = (64 * 1024 * 1024)%nat) by apply length_zeros.
  set (C1 := slice_assign Z0 (2048 * 512) (2048 * 512 + length img) img).
  assert (LC1 : length C1 = Nat.max (64 * 1024 * 1024) (2048 * 512 + length img)).
  { unfold C1, slice_assign. rewrite !length_app, length_firstn, length_skipn, LZ.
    lia. }
  destruct (build_mbr_entry (ch ++ main_code) pe Lf Lp) as (Lm & _).
  split; [|split].
  - rewrite length_slice_assign by lia. exact LC1.
  - intros i Hi. rewrite nth_error_slice_hi by lia.
    unfold C1. rewrite nth_error_slice_lo by lia.
    apply nth_error_zeros. lia.
  - intros i Hi. rewrite nth_error_slice_hi by lia.
    unfold C1. rewrite nth_error_slice_hi by lia.
    apply nth_error_zeros. lia.
Qed.

(** X10. Sector 0 of the nested container carries one partition entry at
    0x1BE: bootable (0x80), type 0x42, starting at LBA 2048 and spanning
    the image's whole sectors [len / 512]; bytes 0x1FE-0x1FF are 0x55
    0xAA. *)
Theorem vsim_partition img :
  match create_ventoy_sim img return Prop with
  | Some c =>
      u8 c 446 = 128 /\ u8 c (446 + 4) = 66 /\
      le32 c (446 + 8) = VENTOY_SIM_OFFSET_SECTORS /\
      le32 c (446 + 12) = Z.of_nat (length img) / 512 /\
      u8 c 510 = 85 /\ u8 c 511 = 170
  | None => 2 ^ 32 <= Z.of_nat (length img) / 512
  end.
Proof.
  destruct (Z_lt_le_dec (Z.of_nat (length img) / 512) (2 ^ 32)) as [Hs|Hs];
    [|pose proof (vsim_spec img) as H;
      destruct (create_ventoy_sim img); [destruct H; lia | exact H]].
  destruct (vsim_some img Hs)
    as (ch & pe & Lf & Lp & P0 & P4 & P8 & P12 & E').
  rewrite E'. cbv beta iota.
  set (C1 := slice_assign (zeros (64 * 1024 * 1024)) (2048 * 512)
               (2048 * 512 + length img) img).
  assert (LC1 : (512 <= length C1)%nat).
  { unfold C1, slice_assign. rewrite !length_app, length_firstn, length_zeros.
    lia. }
  destruct (build_mbr_entry (ch ++ main_code) pe Lf Lp) as (Lm & Ent & S0 & S1).
  assert (U : forall k, (446 <= k < 462)%nat ->
            u8 (slice_assign C1 0 512 (build_mbr (ch ++ main_code) pe)) k
            = u8 pe (k - 446)).
  { intros k Hk. apply u8_eq. rewrite nth_error_slice_in by lia.
    rewrite Nat.sub_0_r. apply Ent. exact Hk. }
  split; [|split; [|split; [|split; [|split]]]].
  - rewrite U by lia. exact P0.
  - rewrite U by lia. exact P4.
  - unfold le32, le16 in *. rewrite !U by lia. exact P8.
  - unfold le32, le16 in *. rewrite !U by lia. exact P12.
  - assert (N : nth_error (slice_assign C1 0 512 (build_mbr (ch ++ main_code) pe))
                  510 = Some Byte.x55)
      by (rewrite nth_error_slice_in by lia; exact S0).
    unfold u8. rewrite (nth_error_nth _ _ _ N). reflexivity.
  - assert (N : nth_error (slice_assign C1 0 512 (build_mbr (ch ++ main_code) pe))
                  511 = Some Byte.xaa)
      by (rewrite nth_error_slice_in by lia; exact S1).
    unfold u8. rewrite (nth_error_nth _ _ _ N). reflexivity.
Qed.

End VentoyExtras.

(* ------------------------------------------------------------------ *)
(** ** The ISO step *)

Module IsoExtras.
Import Iso.

Lemma run_iso_tool_some t clock disk iso :
  iso <> None -> snd (run_iso_tool t clock disk iso) <> None.
Proof.
  intros H. destruct t as [f|]; [|exact H]. cbn.
  destruct (f clock disk) as [ok [w|]]; cbn; [discriminate | exact H].
Qed.

(** X11. The ISO step always leaves an ISO file, and that file is one a
    tool found on the host wrote, the copy of the raw image made by the
    fallback, or the file that was there before. *)
Theorem create_iso_provenance ts clock disk iso :
  exists x, create_iso ts clock disk iso = Some x /\
    ((exists t ok, (xorriso ts = Some t \/ genisoimage ts = Some t) /\
                   t clock disk = (ok, Some x)) \/
     x = disk \/ iso = Some x).
Proof.
  unfold create_iso, run_iso_tool.
  destruct (xorriso ts) as [t1|] eqn:X.
  - destruct (t1 clock disk) as [ok1 w1] eqn:T1.
    destruct (ok1 && match match w1 with Some x => Some x | None => iso end with
                     | Some _ => true | None => false end) eqn:D1.
    + destruct w1 as [x|]; [exists x; split; [reflexivity|]; left; eauto|].
      destruct iso as [x|]; [|rewrite andb_false_r in D1; discriminate].
      exists x. auto.
    + destruct (genisoimage ts) as [t2|] eqn:G.
      * destruct (t2 clock disk) as [ok2 w2] eqn:T2.
        destruct (ok2 && _) eqn:D2.
        -- destruct w2 as [x|]; [exists x; split; [reflexivity|]; left; eauto|].
           destruct w1 as [x|]; [exists x; split; [reflexivity|]; left; eauto|].
           destruct iso as [x|]; [|rewrite andb_false_r in D2; discriminate].
           exists x. auto.
        -- exists disk. auto.
      * exists disk. auto.
  - destruct (genisoimage ts) as [t2|] eqn:G.
    + destruct (t2 clock disk) as [ok2 w2] eqn:T2.
      destruct (ok2 && _) eqn:D2.
      * destruct w2 as [x|]; [exists x; split; [reflexivity|]; left; eauto|].
        destruct iso as [x|]; [|rewrite andb_false_r in D2; discriminate].
        exists x. auto.
      * exists disk. auto.
    + exists disk. auto.
Qed.

(** X12. A stale ISO survives: when xorriso exits with status 0 without
    writing [ISO_IMG] and an ISO from an earlier build is there, the step
    reports success and keeps that earlier file, without trying the
    other tool or the fallback. *)
Theorem create_iso_keeps_stale ts clock disk old t :
  xorriso ts = Some t -> t clock disk = (true, None) ->
  create_iso ts clock disk (Some old) = Some old.
Proof.
  intros X T. unfold create_iso, run_iso_tool. rewrite X, T. reflexivity.
Qed.

Lemma create_iso_keeps_stale_witness :
  let ts := mk_tools (Some (fun _ _ => (true, None))) None in
  xorriso ts = Some (fun _ _ => (true, None)) /\
  (fun (_ : Z) (_ : list byte) => (true, @None (list byte))) 0 [Byte.x01]
    = (true, None) /\
  create_iso ts 0 [Byte.x01] (Some [Byte.x02]) = Some [Byte.x02].
Proof.
  cbv zeta. split; [reflexivity|]. split; [reflexivity|].
  apply (create_iso_keeps_stale _ 0 [Byte.x01] [Byte.x02]
           (fun _ _ => (true, None))); reflexivity.
Defined.

End IsoExtras.

(* ------------------------------------------------------------------ *)
(** ** [main] with its flags *)

Module MainExtras.
Import (notations) Stdlib.Strings.String.
Local Open Scope string_scope.
Import Cli Main.

Lemma create_iso_some ts clock disk iso :
  Iso.create_iso ts clock disk iso <> None.
Proof.
  unfold Iso.create_iso, Iso.run_iso_tool.
  destruct (Iso.xorriso ts) as [t1|].
  - destruct (t1 clock disk) as [ok1 [w1|]].
    + destruct ok1; cbn; [discriminate|].
      destruct (Iso.genisoimage ts) as [t2|]; [|discriminate].
      destruct (t2 clock disk) as [ok2 [w2|]]; destruct ok2; cbn; discriminate.
    + destruct iso as [x|].
      * destruct ok1; cbn; [discriminate|].
        destruct (Iso.genisoimage ts) as [t2|]; [|discriminate].
        destruct (t2 clock disk) as [ok2 [w2|]]; destruct ok2; cbn; discriminate.
      * rewrite andb_false_r. cbn.
        destruct (Iso.genisoimage ts) as [t2|]; [|discriminate].
        destruct (t2 clock disk) as [ok2 [w2|]]; destruct ok2; cbn; discriminate.
  - destruct (Iso.genisoimage ts) as [t2|]; [|discriminate].
    destruct (t2 clock disk) as [ok2 [w2|]]; [destruct ok2; cbn; discriminate|].
    destruct iso; destruct ok2; cbn; discriminate.
Qed.

(** [run_qemu] only ever adds the nested container. *)
Lemma run_qemu_frame argv o ds o' :
  run_qemu argv o = Some (ds, o') ->
  Build.disk_img o' = Build.disk_img o /\ Build.raw_copy o' = Build.raw_copy o /\
  Build.iso_img o' = Build.iso_img o.
Proof.
  unfold run_qemu. intros H.
  destruct (String.eqb (qemu_mode argv) "iso");
    [injection H as _ <-; auto|].
  destruct (String.eqb (qemu_mode argv) "ventoy-sim").
  - destruct (Build.vsim_img o); [injection H as _ <-; auto|].
    destruct (Build.disk_img o) as [d|] eqn:D; [|injection H as _ <-; auto].
    destruct (Ventoy.create_ventoy_sim d); [|discriminate H].
    injection H as _ <-. cbn. auto.
  - destruct (String.eqb (qemu_mode argv) "both"); injection H as _ <-; auto.
Qed.

(** With the container in place [run_qemu] starts QEMU and changes no file. *)
Lemma run_qemu_with_vsim argv o :
  Build.vsim_img o <> None ->
  run_qemu argv o =
  Some (let t := match Build.iso_img o with Some _ => IsoImg | None => DiskImg end in
        if String.eqb (qemu_mode argv) "iso" then [t]
        else if String.eqb (qemu_mode argv) "ventoy-sim" then [VsimImg]
        else if String.eqb (qemu_mode argv) "both" then [DiskImg; t]
        else [DiskImg], o).
Proof.
  intros H. unfold run_qemu.
  destruct (String.eqb (qemu_mode argv) "iso"); [reflexivity|].
  destruct (String.eqb (qemu_mode argv) "ventoy-sim").
  - destruct (Build.vsim_img o); [reflexivity | congruence].
  - destruct (String.eqb (qemu_mode argv) "both"); reflexivity.
Qed.

(** X13. [main] never stops in [run_qemu]: it has written the nested
    container just before, so the ventoy-sim mode never rebuilds it. *)
Theorem main_no_qemu_setup_stop argv h st boot stage2 kernel :
  match main argv h st boot stage2 kernel with
  | Stopped QemuSetup _ => False
  | _ => True
  end.
Proof.
  unfold main.
  destruct (arg argv "--clean"); [exact I|].
  destruct (check_tools (host_which h)); [|exact I].
  destruct (negb (length boot =? 512)%nat); [exact I|].
  destruct (negb (length stage2 =? 64 * 512)%nat); [exact I|].
  destruct (snd (Raw.create_raw _ boot stage2 kernel)) as [img|]; [|exact I].
  cbv zeta.
  destruct (Ventoy.create_ventoy_sim img) as [c|]; [|exact I].
  destruct (arg argv "--no-run"); [exact I|].
  rewrite run_qemu_with_vsim by (cbn; discriminate). exact I.
Qed.





(** X16. The drives QEMU boots after a finished build: [--mode=ventoy-sim]
    boots the nested container; [--mode=iso] boots the ISO, except with
    [--no-iso] when no ISO from an earlier build exists, where it boots
    the raw image. *)
Theorem main_drives argv h st boot stage2 kernel :
  match main argv h st boot stage2 kernel with
  | Finished _ (Some ds) =>
      (String.eqb (qemu_mode argv) "ventoy-sim" = true -> ds = [VsimImg]) /\
      (String.eqb (qemu_mode argv) "iso" = true ->
       ds = [if arg argv "--no-iso"
             then match Build.iso_img (out st) with
                  | Some _ => IsoImg | None => DiskImg end
             else IsoImg])
  | _ => True
  end.
Proof.
  unfold main.
  destruct (arg argv "--clean"); [exact I|].
  destruct (check_tools (host_which h)); [|exact I].
  destruct (negb (length boot =? 512)%nat); [exact I|].
  destruct (negb (length stage2 =? 64 * 512)%nat); [exact I|].
  destruct (snd (Raw.create_raw _ boot stage2 kernel)) as [img|]; [|exact I].
  cbv zeta.
  destruct (Ventoy.create_ventoy_sim img) as [c|]; [|exact I].
  destruct (arg argv "--no-run"); [exact I|].
  rewrite run_qemu_with_vsim by (cbn; discriminate). cbn [Build.iso_img].
  split; intros M.
  - rewrite M. destruct (String.eqb (qemu_mode argv) "iso") eqn:I'; [|reflexivity].
    apply String.eqb_eq in M, I'. congruence.
  - rewrite M. destruct (arg argv "--no-iso"); [reflexivity|].
    pose proof (create_iso_some (host_iso h) (host_clock h) img
                  (Build.iso_img (out st))) as S.
    destruct (Iso.create_iso _ _ _ _); [reflexivity | congruence].
Qed.



End MainExtras.
